(** * SkillSwap front end: data-access and identity-propagation layer

    A shallow embedding of
      - [src/services/api.js]          (module [Api]),
      - [src/contexts/AuthContext.jsx] (module [AuthContext]),
      - [src/hooks/useErrorHandler.js] (module [ErrorHandler]),
      - the mock service of [src/App.jsx] (module [MockApi]) and the
        logic of its views (module [Views]),
    over a small model of the JavaScript values these files manipulate
    (module [Js]), followed by the properties of the specification. *)

From stdpp Require Import gmap strings list fin_maps pretty.
From Stdlib Require Import ZArith.

Local Open Scope Z_scope.
Set Warnings "-register-all".

(** ** JavaScript values *)

Module Js.

(** JSON-shaped values.  Objects are finite maps from property names to
    values.  Numbers are the integers: the code below only ever inspects
    counts, lengths and HTTP status codes, and tests other numbers for
    truthiness. *)
Inductive value : Type :=
  | VUndefined
  | VNull
  | VBool (b : bool)
  | VNum (n : Z)
  | VStr (s : string)
  | VArr (l : list value)
  | VObj (m : gmap string value).

(** ToBoolean: [undefined], [null], [false], [0] and [""] are falsy;
    every array and every object is truthy. *)
Definition truthy (v : value) : bool :=
  match v with
  | VUndefined | VNull => false
  | VBool b => b
  | VNum n => negb (n =? 0)
  | VStr s => negb (String.eqb s "")
  | VArr _ | VObj _ => true
  end.

Definition nullish (v : value) : bool :=
  match v with
  | VUndefined | VNull => true
  | _ => false
  end.

(** Exceptions.  The only one the modelled code can raise is the
    [TypeError] of a property read on [null] or [undefined]. *)
Inductive exn : Type := TypeError.

Inductive result (A : Type) : Type :=
  | Ok (a : A)
  | Throw (e : exn).
Arguments Ok {A} a.
Arguments Throw {A} e.

#[global] Instance result_ret : MRet result := @Ok.
#[global] Instance result_bind : MBind result := λ A B f r,
  match r with
  | Ok a => f a
  | Throw e => Throw e
  end.

(** [v.k]: own properties of objects and the [length] of arrays and
    strings.  The modelled code reads fixed names only ([data], [tasks],
    [items], [count], [message], [ratings], [statistics], [id],
    [response], [status], [detail], [length]); none of them is an array
    index or a member of a built-in prototype. *)
Definition get (v : value) (k : string) : result value :=
  match v with
  | VUndefined | VNull => Throw TypeError
  | VObj m => Ok (default VUndefined (m !! k))
  | VArr l =>
      Ok (if String.eqb k "length" then VNum (Z.of_nat (length l))
          else VUndefined)
  | VStr s =>
      Ok (if String.eqb k "length" then VNum (Z.of_nat (String.length s))
          else VUndefined)
  | VBool _ | VNum _ => Ok VUndefined
  end.

(** [v?.k] *)
Definition get_opt (v : value) (k : string) : result value :=
  if nullish v then Ok VUndefined else get v k.

(** [a || b]: [b] is evaluated only when [a] is falsy. *)
Definition or_else (a b : result value) : result value :=
  x ← a; if truthy x then Ok x else b.

(** [c ? a : b] *)
Definition cond (c a b : result value) : result value :=
  x ← c; if truthy x then a else b.

(** [v === n] for a number literal [n]. *)
Definition is_number (n : Z) (v : value) : bool :=
  match v with
  | VNum m => m =? n
  | _ => false
  end.

(** The own enumerable properties an object spread [{...v}] copies:
    those of an object, the indexed elements of an array, the indexed
    characters of a string, and nothing for the other values. *)
Fixpoint chars (s : string) : list value :=
  match s with
  | EmptyString => []
  | String c s' => VStr (String c EmptyString) :: chars s'
  end.

Definition indexed (l : list value) : gmap string value :=
  list_to_map (imap (λ i x, (pretty i, x)) l).

Definition own_props (v : value) : gmap string value :=
  match v with
  | VObj m => m
  | VArr l => indexed l
  | VStr s => indexed (chars s)
  | VUndefined | VNull | VBool _ | VNum _ => ∅
  end.

(** [{...a, ...b}]: properties of [b] override those of [a]. *)
Definition spread (a b : value) : value :=
  VObj (own_props b ∪ own_props a).

(** A settled promise. *)
Inductive settled : Type :=
  | Fulfilled (v : value)
  | Rejected (e : value).

(** The value a thrown exception rejects a promise with. *)
Definition exn_value (e : exn) : value :=
  match e with
  | TypeError => VObj {[ "name" := VStr "TypeError" ]}
  end.

(** One call of [console.error]: its arguments. *)
Definition entry : Type := list value.

End Js.

Import Js.

(** ** src/services/api.js *)

Module Api.

Inductive verb : Type := GET | POST | PUT | DELETE.

(** An axios request configuration. *)
Record config : Type := Config {
  method : verb;
  url : string;
  data : value;
  params : value;
  headers : gmap string value;
  baseURL : value;
  timeout : Z
}.

(** The module-level [currentUser], the console, and the requests handed
    to the network so far. *)
Record world : Type := World {
  currentUser : value;
  console : list entry;
  wire : list config
}.

(** [let currentUser = null] on a fresh page. *)
Definition init : world :=
  {| currentUser := VNull; console := []; wire := [] |}.

Definition setCurrentUser (user : value) (w : world) : world :=
  {| currentUser := user; console := console w; wire := wire w |}.

Definition getCurrentUser (w : world) : value := currentUser w.

Definition set_header (k : string) (v : value) (c : config) : config :=
  {| method := method c; url := url c; data := data c; params := params c;
     headers := <[k := v]> (headers c);
     baseURL := baseURL c; timeout := timeout c |}.

(** The request interceptor's fulfilled handler (api.js:26-33). *)
Definition request_interceptor (currentUser : value) (c : config)
  : result config :=
  id ← get_opt currentUser "id";
  if truthy id then
    v ← get currentUser "id";
    mret (set_header "x-user-id" v c)
  else
    mret (set_header "x-user-id" (VStr "test-user-123") c).

(** Its rejected handler (api.js:34-36). *)
Definition request_interceptor_error (error : value) : settled :=
  Rejected error.

Definition log (e : entry) (w : world) : world :=
  {| currentUser := currentUser w; console := console w ++ [e];
     wire := wire w |}.

(** The response interceptor (api.js:39-48), on a settled transport
    outcome: the fulfilled handler is the identity, the rejected handler
    logs an unauthorized response and rejects with the same error. *)
Definition is_unauthorized (error : value) : result bool :=
  r ← get error "response";
  s ← get_opt r "status";
  mret (is_number 401 s).

Definition response_interceptor (o : settled) (w : world)
  : settled * world :=
  match o with
  | Fulfilled response => (Fulfilled response, w)
  | Rejected error =>
      match is_unauthorized error with
      | Ok true => (Rejected error, log [VStr "Unauthorized access"] w)
      | Ok false => (Rejected error, w)
      | Throw e => (Rejected (exn_value e), w)
      end
  end.

(** *** axios

    The HTTP library is not part of the repository.  What the client
    relies on is modelled after its documented defaults, which
    [axios.create] (api.js:6-12) does not override: a response whose
    status lies outside [200, 300) rejects with an error carrying the
    response, a transport failure or timeout rejects with an error
    without one, and the interceptor chain runs request handlers, then
    the network, then response handlers. *)

Definition axios_response (status : Z) (body : value) : value :=
  VObj {[ "status" := VNum status; "data" := body ]}.

Definition axios_error (response : option value) : value :=
  match response with
  | Some r => VObj {[ "name" := VStr "AxiosError"; "response" := r ]}
  | None => VObj {[ "name" := VStr "AxiosError" ]}
  end.

Definition validateStatus (status : Z) : bool :=
  (200 <=? status) && (status <? 300).

Definition settle (exchange : option (Z * value)) : settled :=
  match exchange with
  | None => Rejected (axios_error None)
  | Some (status, body) =>
      if (status =? 0) || validateStatus status
      then Fulfilled (axios_response status body)
      else Rejected (axios_error (Some (axios_response status body)))
  end.

Section Client.

(** [import.meta.env.VITE_API_BASE_URL] *)
Variable VITE_API_BASE_URL : value.

(** The network and the backend behind it: the status and parsed body
    answered to a request, or nothing on a transport failure. *)
Variable adapter : config → option (Z * value).

Definition API_BASE_URL : value :=
  if truthy VITE_API_BASE_URL then VITE_API_BASE_URL
  else VStr "http://localhost:8000".

(** [axios.create({...})] (api.js:6-12): the instance defaults merged
    into every request.  The headers are the ones this file sets; those
    the library adds by itself (its default [Accept]) are left out. *)
Definition create (m : verb) (u : string) (d p : value) : config :=
  {| method := m; url := u; data := d; params := p;
     headers := {[ "Content-Type" := VStr "application/json" ]};
     baseURL := API_BASE_URL; timeout := 10000 |}.

Definition send (c : config) (w : world) : world :=
  {| currentUser := currentUser w; console := console w;
     wire := wire w ++ [c] |}.

(** One request through the interceptor chain, from the call to the
    settled promise: the call as it proceeds when it is awaited. *)
Definition request (c : config) (w : world) : settled * world :=
  match request_interceptor (currentUser w) c with
  | Ok c' => response_interceptor (settle (adapter c')) (send c' w)
  | Throw e => response_interceptor (Rejected (exn_value e)) w
  end.

(** [apiClient.get(url, {params})], [apiClient.post(url, data,
    {params})], [apiClient.put(url, data)], [apiClient.delete(url)];
    an argument that is not passed is [undefined]. *)
Definition apiClient_get (u : string) (p : value) :=
  request (create GET u VUndefined p).
Definition apiClient_post (u : string) (d p : value) :=
  request (create POST u d p).
Definition apiClient_put (u : string) (d : value) :=
  request (create PUT u d VUndefined).
Definition apiClient_delete (u : string) :=
  request (create DELETE u VUndefined VUndefined).

(** A default parameter [(params = {})]. *)
Definition or_default (v d : value) : value :=
  match v with
  | VUndefined => d
  | _ => v
  end.

(** [apiService] (api.js:50-75).  Identifiers are strings, on which a
    template literal is concatenation. *)
Definition getProfile := apiClient_get "/users/me" VUndefined.
Definition updateProfile (data : value) := apiClient_put "/users/" data.
Definition createUser (data : value) :=
  apiClient_post "/users/" data VUndefined.

Definition getOpenTasks (params : value) :=
  apiClient_get "/tasks/open" (or_default params (VObj ∅)).
Definition getMyPostedTasks (params : value) :=
  apiClient_get "/tasks/my/posted" (or_default params (VObj ∅)).
Definition getMyAcceptedTasks (params : value) :=
  apiClient_get "/tasks/my/accepted" (or_default params (VObj ∅)).
Definition createTask (task : value) :=
  apiClient_post "/tasks/" task VUndefined.
Definition acceptTask (taskId : string) :=
  apiClient_post ("/tasks/" +:+ taskId +:+ "/accept")
    VUndefined VUndefined.
Definition completeTask (taskId : string) :=
  apiClient_post ("/tasks/" +:+ taskId +:+ "/complete")
    VUndefined VUndefined.
Definition deleteTask (taskId : string) :=
  apiClient_delete ("/tasks/" +:+ taskId).

Definition getMyRatings (params : value) :=
  apiClient_get "/ratings/my/received" (or_default params (VObj ∅)).
Definition getMyGivenRatings (params : value) :=
  apiClient_get "/ratings/my/given" (or_default params (VObj ∅)).
Definition createRating (rating : value) :=
  apiClient_post "/ratings/" rating VUndefined.
Definition flagRating (ratingId : string) (reason : value) :=
  apiClient_post ("/ratings/" +:+ ratingId +:+ "/flag") VNull
    (VObj {[ "flag_reason" := reason ]}).

Definition createReport (report : value) :=
  apiClient_post "/reports/" report VUndefined.
Definition getMyReports (params : value) :=
  apiClient_get "/reports/my/sent" (or_default params (VObj ∅)).
Definition getReportsAgainstMe (params : value) :=
  apiClient_get "/reports/my/received" (or_default params (VObj ∅)).

End Client.

(** [transformTaskResponse] (api.js:78-82). *)
Definition transformTaskResponse (response : value) : result value :=
  tasks ← or_else (d ← get response "data"; get d "tasks")
          (or_else (d ← get response "data"; get d "items")
             (d ← get response "data"; mret (VArr [d])));
  count ← or_else (d ← get response "data"; get d "count")
            (cond (d ← get response "data"; get d "tasks")
               (d ← get response "data"; t ← get d "tasks"; get t "length")
               (mret (VNum 1)));
  message ← (d ← get response "data"; get d "message");
  mret (VObj {[ "tasks" := tasks; "count" := count;
                "message" := message ]}).

(** [transformRatingResponse] (api.js:84-87). *)
Definition transformRatingResponse (response : value) : result value :=
  ratings ← or_else (d ← get response "data"; get d "ratings")
              (d ← get response "data"; mret (VArr [d]));
  statistics ← or_else (d ← get response "data"; get d "statistics")
                 (mret (VObj {[ "average_rating" := VNum 0;
                                "total_ratings" := VNum 0 ]}));
  mret (VObj {[ "ratings" := ratings; "statistics" := statistics ]}).

End Api.

(** ** src/contexts/AuthContext.jsx *)

Module AuthContext.

(** The provider's two state cells, [user] and [loading], next to the
    API module whose [currentUser] it keeps in step.  A state cell holds
    the value its last setter call gave it. *)
Record state : Type := State {
  user : value;
  loading : bool;
  api : Api.world
}.

(** [useState(null)], [useState(true)], and the freshly loaded API
    module. *)
Definition init : state :=
  {| user := VNull; loading := true; api := Api.init |}.

Definition setUser (u : value) (s : state) : state :=
  {| user := u; loading := loading s; api := api s |}.

Definition setLoading (b : bool) (s : state) : state :=
  {| user := user s; loading := b; api := api s |}.

Definition setCurrentUser (u : value) (s : state) : state :=
  {| user := user s; loading := loading s;
     api := Api.setCurrentUser u (api s) |}.

(** [updateUser] (AuthContext.jsx:14-17). *)
Definition updateUser (userData : value) (s : state) : state :=
  setCurrentUser userData (setUser userData s).

Definition testUser : value :=
  VObj {[ "id" := VStr "test-user-123";
          "full_name" := VStr "Test User";
          "email" := VStr "test@example.com" ]}.

(** The mount effect (AuthContext.jsx:20-30). *)
Definition mount (s : state) : state :=
  setLoading false (updateUser testUser s).

Definition login (userData : value) (s : state) : state :=
  updateUser userData s.

Definition logout (s : state) : state :=
  updateUser VNull s.

(** What can happen to a mounted provider: its effect, the mutators it
    hands to the views ([setUser] is [updateUser] in the context value),
    and requests the views make through the API client. *)
Inductive action : Type :=
  | Mount
  | Login (u : value)
  | Logout
  | SetUser (u : value)
  | Call (c : Api.config).

Section Run.

Variable VITE_API_BASE_URL : value.
Variable adapter : Api.config → option (Z * value).

Definition step (s : state) (a : action) : state :=
  match a with
  | Mount => mount s
  | Login u => login u s
  | Logout => logout s
  | SetUser u => updateUser u s
  | Call c =>
      {| user := user s; loading := loading s;
         api := snd (Api.request adapter c (api s)) |}
  end.

Definition run (acts : list action) (s : state) : state :=
  fold_left step acts s.

End Run.

End AuthContext.

(** ** src/hooks/useErrorHandler.js *)

Module ErrorHandler.

(** The hook's [error] state cell and the console it writes to. *)
Record hook : Type := Hook {
  error : value;
  console : list entry
}.

(** [useState(null)] *)
Definition init : hook := {| error := VNull; console := [] |}.

Definition setError (v : value) (h : hook) : hook :=
  {| error := v; console := console h |}.

Definition log (e : entry) (h : hook) : hook :=
  {| error := error h; console := console h ++ [e] |}.

(** [handleError] (useErrorHandler.js:7-10).  The console line is
    written before the message is computed, so it is also there when the
    property read throws. *)
Definition handleError (err : value) (h : hook) : result unit * hook :=
  let h' := log [VStr "API Error:"; err] h in
  match or_else (r ← get err "response";
                 d ← get_opt r "data";
                 get_opt d "detail")
                (mret (VStr "An unexpected error occurred")) with
  | Ok msg => (Ok (), setError msg h')
  | Throw e => (Throw e, h')
  end.

Definition clearError (h : hook) : hook := setError VNull h.

End ErrorHandler.

(** ** src/App.jsx: the mock service *)

Module MockApi.

Definition mockUser : value :=
  VObj {[ "id" := VStr "test-user-123";
          "full_name" := VStr "John Doe";
          "email" := VStr "john@example.com";
          "skill" := VStr "Web Development";
          "bio" := VStr "Experienced full-stack developer";
          "is_active" := VBool true ]}.

Definition getProfile : settled := Fulfilled mockUser.

(** [updateProfile: async (data) => ({ ...mockUser, ...data })]
    (App.jsx:64). *)
Definition updateProfile (data : value) : settled :=
  Fulfilled (spread mockUser data).

(** The payload the profile form submits (App.jsx:576-580, 586): the
    three editable fields of the user on screen. *)
Definition editForm (user : value) (full_name skill bio : value) : value :=
  VObj {[ "full_name" := full_name; "skill" := skill; "bio" := bio ]}.

Definition mockTasks : list value :=
  [ VObj {[ "task_id" := VStr "1";
            "title" := VStr "Build a landing page";
            "description" :=
              VStr "Need help creating a modern landing page for my startup";
            "tags" := VArr [VStr "web"; VStr "design"; VStr "react"];
            "location" := VStr "Remote";
            "time" := VStr "2024-01-15T14:00:00";
            "status" := VStr "open";
            "posted_by" := VStr "user-456";
            "timestamp" := VStr "2024-01-10T10:00:00" ]};
    VObj {[ "task_id" := VStr "2";
            "title" := VStr "Photography for event";
            "description" :=
              VStr "Looking for photographer for wedding event";
            "tags" := VArr [VStr "photography"; VStr "wedding"; VStr "event"];
            "location" := VStr "Manila";
            "time" := VStr "2024-01-20T09:00:00";
            "status" := VStr "open";
            "posted_by" := VStr "user-789";
            "timestamp" := VStr "2024-01-11T15:30:00" ]} ].

(** [{ ...o, k: v }]: a property written after a spread replaces the one
    the spread copied. *)
Definition spread_with (o : value) (k : string) (v : value)
  : gmap string value :=
  <[k := v]> (own_props o).

(** [createTask], [createRating], [createReport] (App.jsx:70, 79, 82).
    [now] is what [Date.now()] answers, in milliseconds. *)
Definition createTask (now : Z) (task : value) : settled :=
  Fulfilled
    (VObj (<["status" := VStr "open"]>
             (spread_with task "task_id" (VStr (pretty now))))).

Definition createRating (now : Z) (rating : value) : settled :=
  Fulfilled (VObj (spread_with rating "rating_id" (VStr (pretty now)))).

Definition createReport (now : Z) (report : value) : settled :=
  Fulfilled (VObj (spread_with report "report_id" (VStr (pretty now)))).

End MockApi.


(** ** src/App.jsx: the views

    The handlers and render helpers of the components, without the
    markup.  Strings are compared and cut character by character;
    [toLowerCase] and [trim], whose result depends on the character set,
    are parameters. *)

Module Views.

(** [s.includes(q)] *)
Fixpoint starts_with (q s : string) : bool :=
  match q, s with
  | EmptyString, _ => true
  | String _ _, EmptyString => false
  | String a q', String b s' => Ascii.eqb a b && starts_with q' s'
  end.

Fixpoint includes (q s : string) : bool :=
  starts_with q s ||
  match s with
  | EmptyString => false
  | String _ s' => includes q s'
  end.


(** [s.split(sep)] for a one-character separator, and [l.join(sep)]. *)
Fixpoint split (sep : Ascii.ascii) (s : string) : list string :=
  match s with
  | EmptyString => [EmptyString]
  | String c s' =>
      if Ascii.eqb c sep then EmptyString :: split sep s'
      else match split sep s' with
           | piece :: pieces => String c piece :: pieces
           | [] => [String c EmptyString]
           end
  end.

Fixpoint join (sep : Ascii.ascii) (l : list string) : string :=
  match l with
  | [] => EmptyString
  | [piece] => piece
  | piece :: pieces => piece +:+ String sep (join sep pieces)
  end.

(** [l.some(f)] and [l.filter(f)] for a callback that may throw: the
    elements are visited in order, [some] stops at the first hit. *)
Fixpoint some (f : value → result bool) (l : list value) : result bool :=
  match l with
  | [] => mret false
  | x :: l' => b ← f x; if b : bool then mret true else some f l'
  end.

Fixpoint filter (f : value → result bool) (l : list value)
  : result (list value) :=
  match l with
  | [] => mret []
  | x :: l' => b ← f x; r ← filter f l'; mret (if b : bool then x :: r else r)
  end.

Section Builtins.

(** [String.prototype.toLowerCase] and [String.prototype.trim]. *)
Variable toLowerCase : string → string.
Variable trim : string → string.

(** [v.toLowerCase()]: a method of strings only. *)
Definition call_toLowerCase (v : value) : result string :=
  match v with
  | VStr s => mret (toLowerCase s)
  | _ => Throw TypeError
  end.

(** [v.some(f)]: a method of arrays only. *)
Definition call_some (f : value → result bool) (v : value) : result bool :=
  match v with
  | VArr l => some f l
  | _ => Throw TypeError
  end.

(** The search predicate of the dashboard (App.jsx:143-146). *)
Definition matches (searchQuery : string) (task : value) : result bool :=
  title ← get task "title";
  t ← call_toLowerCase title;
  if includes (toLowerCase searchQuery) t then mret true
  else
    tags ← get task "tags";
    call_some (λ tag, g ← call_toLowerCase tag;
                      mret (includes (toLowerCase searchQuery) g))
              tags.

Definition filteredTasks (tasks : list value) (searchQuery : string)
  : result (list value) :=
  filter (matches searchQuery) tasks.



End Builtins.

(** [renderStars] (App.jsx:742-749): five stars, the [i]-th one gold when
    [i < rating]. *)
Inductive star : Type := Gold | Grey.

Definition renderStars (rating : Z) : list star :=
  (λ i : nat, if Z.of_nat i <? rating then Gold else Grey) <$> seq 0 5.

(** The tabs of the header (App.jsx:98) and [renderContent]
    (App.jsx:1053-1068). *)
Inductive view : Type := Dashboard | MyTasks | Profile | Ratings | Reports.

Definition header_tabs : list string :=
  ["dashboard"; "my-tasks"; "profile"; "ratings"].

Definition renderContent (activeTab : string) : view :=
  if String.eqb activeTab "dashboard" then Dashboard
  else if String.eqb activeTab "my-tasks" then MyTasks
  else if String.eqb activeTab "profile" then Profile
  else if String.eqb activeTab "ratings" then Ratings
  else if String.eqb activeTab "reports" then Reports
  else Dashboard.

(** [activeTab] starts as ['dashboard'] (App.jsx:1035); the only caller
    of [setActiveTab] is the click handler of a header button
    (App.jsx:101), here the click on the [i]-th button. *)
Definition initialTab : string := "dashboard".

Definition click (activeTab : string) (i : nat) : string :=
  default activeTab (header_tabs !! i).

Definition clicks (l : list nat) : string :=
  fold_left click l initialTab.

(** The Profile view (App.jsx:574-595, 617-668): its state cells, the
    three inputs of the form, and [handleSaveProfile] on the mock
    service. *)
Record profile : Type := ProfileView {
  user : value;
  isEditing : bool;
  editForm : value;
  alerts : list string
}.



(** [useState(mockUser)], [useState(false)], and the form filled from the
    user's [full_name], [skill] and [bio || '']. *)
Definition initialProfile : profile :=
  {| user := MockApi.mockUser;
     isEditing := false;
     editForm :=
       MockApi.editForm MockApi.mockUser
         (VStr "John Doe") (VStr "Web Development")
         (VStr "Experienced full-stack developer");
     alerts := [] |}.







End Views.

(** ** Properties *)

Import Api.

(** *** The request interceptor *)

Lemma truthy_string s : truthy (VStr s) = true ↔ s ≠ "".
Proof.
  simpl. destruct (String.eqb_spec s ""); simpl; split; congruence.
Qed.

(** The interceptor never throws, always writes the header, and writes
    either the fallback or the user's own (truthy) id. *)
Lemma request_interceptor_sets cu c :
  ∃ v, request_interceptor cu c = Ok (set_header "x-user-id" v c)
       ∧ truthy v = true
       ∧ (get cu "id" = Ok v ∨
          v = VStr "test-user-123" ∧
          (nullish cu = true ∨ ∃ i, get cu "id" = Ok i ∧ truthy i = false)).
Proof.
  unfold request_interceptor, get_opt.
  destruct (nullish cu) eqn:Hn.
  - exists (VStr "test-user-123"). simpl. split_and!; [done..|]. right. auto.
  - assert (∃ i, get cu "id" = Ok i) as [i Hi]
      by (destruct cu; simpl in *; eauto; discriminate).
    rewrite Hi. simpl. destruct (truthy i) eqn:Ht.
    + exists i. auto.
    + exists (VStr "test-user-123"). split_and!; [done..|].
      right. split; [done|]. right. eauto.
Qed.

(** The response interceptor touches neither the wire nor the stored
    identity. *)
Lemma response_interceptor_frame o w :
  wire (response_interceptor o w).2 = wire w
  ∧ currentUser (response_interceptor o w).2 = currentUser w.
Proof.
  destruct o as [r|e]; simpl; [done|].
  destruct (is_unauthorized e) as [[]|]; done.
Qed.

Lemma request_wire adapter c w c' :
  request_interceptor (currentUser w) c = Ok c' →
  wire (request adapter c w).2 = wire w ++ [c'].
Proof.
  intros H. unfold request. rewrite H.
  by rewrite (proj1 (response_interceptor_frame _ _)).
Qed.

Lemma request_currentUser adapter c w :
  currentUser (request adapter c w).2 = currentUser w.
Proof.
  unfold request.
  destruct (request_interceptor (currentUser w) c) as [c'|x];
    by rewrite (proj2 (response_interceptor_frame _ _)).
Qed.

Lemma set_header_lookup k v c : headers (set_header k v c) !! k = Some v.
Proof. apply lookup_insert_eq. Qed.

(** C1.  Every request leaves with the [x-user-id] header that the
    identity store dictates when the request is dispatched: the id of the
    current user when that id is a non-empty string, and the fallback
    ["test-user-123"] when no user is set ([null], or [undefined]).
    Nothing else of the request is touched, and exactly that request is
    handed to the network. *)
Theorem request_carries_identity
    (adapter : config → option (Z * value)) (c : config) (w : world) :
  (∀ m s,
      getCurrentUser w = VObj m → m !! "id" = Some (VStr s) → s ≠ "" →
      ∃ c', wire (request adapter c w).2 = wire w ++ [c']
            ∧ c' = set_header "x-user-id" (VStr s) c
            ∧ headers c' !! "x-user-id" = Some (VStr s))
  ∧ (nullish (getCurrentUser w) = true →
      ∃ c', wire (request adapter c w).2 = wire w ++ [c']
            ∧ c' = set_header "x-user-id" (VStr "test-user-123") c
            ∧ headers c' !! "x-user-id" = Some (VStr "test-user-123")).
Proof.
  unfold getCurrentUser. split.
  - intros m s Hu Hid Hs. eexists. split_and!; [|reflexivity|].
    + apply request_wire. rewrite Hu.
      unfold request_interceptor, get_opt. simpl. rewrite Hid. simpl.
      apply truthy_string in Hs. simpl in Hs. by rewrite Hs.
    + apply set_header_lookup.
  - intros Hu. eexists. split_and!; [|reflexivity|].
    + apply request_wire. unfold request_interceptor, get_opt.
      by rewrite Hu.
    + apply set_header_lookup.
Qed.

Lemma request_carries_identity_witness :
  (∃ c', wire (getProfile VUndefined (λ _, None)
                 (setCurrentUser AuthContext.testUser init)).2 = [] ++ [c']
         ∧ c' = set_header "x-user-id" (VStr "test-user-123")
                  (create VUndefined GET "/users/me" VUndefined VUndefined)
         ∧ headers c' !! "x-user-id" = Some (VStr "test-user-123"))
  ∧ (∃ c', wire (getProfile VUndefined (λ _, None)
                   (setCurrentUser
                      (VObj {[ "id" := VStr "u-42" ]}) init)).2 = [] ++ [c']
           ∧ c' = set_header "x-user-id" (VStr "u-42")
                    (create VUndefined GET "/users/me" VUndefined VUndefined)
           ∧ headers c' !! "x-user-id" = Some (VStr "u-42"))
  ∧ (∃ c', wire (getProfile VUndefined (λ _, None) init).2 = [] ++ [c']
           ∧ c' = set_header "x-user-id" (VStr "test-user-123")
                    (create VUndefined GET "/users/me" VUndefined VUndefined)
           ∧ headers c' !! "x-user-id" = Some (VStr "test-user-123")).
Proof.
  split_and!.
  - eapply (proj1 (request_carries_identity (λ _, None)
              (create VUndefined GET "/users/me" VUndefined VUndefined)
              (setCurrentUser AuthContext.testUser init)));
      [reflexivity | reflexivity | discriminate].
  - eapply (proj1 (request_carries_identity (λ _, None)
              (create VUndefined GET "/users/me" VUndefined VUndefined)
              (setCurrentUser (VObj {[ "id" := VStr "u-42" ]}) init)));
      [reflexivity | reflexivity | discriminate].
  - apply (proj2 (request_carries_identity (λ _, None)
              (create VUndefined GET "/users/me" VUndefined VUndefined)
              init)).
    reflexivity.
Defined.

(** C10.  A user whose [id] is the empty string or missing is treated as
    no user at all: the interceptor returns exactly what it returns for
    [null], the fallback header.  The interceptor never throws, and the
    request it lets through, the only one handed to the network, always
    has an [x-user-id] header holding a truthy value (in particular never
    the empty string). *)
Theorem empty_identity_falls_back
    (adapter : config → option (Z * value)) (c : config) (w : world) :
  (∀ m, getCurrentUser w = VObj m →
        m !! "id" = None ∨ m !! "id" = Some (VStr "") →
        request_interceptor (getCurrentUser w) c
          = request_interceptor VNull c
        ∧ wire (request adapter c w).2
          = wire w ++ [set_header "x-user-id" (VStr "test-user-123") c])
  ∧ (∃ c' v, request_interceptor (getCurrentUser w) c = Ok c'
             ∧ wire (request adapter c w).2 = wire w ++ [c']
             ∧ headers c' !! "x-user-id" = Some v
             ∧ truthy v = true
             ∧ v ≠ VStr "").
Proof.
  unfold getCurrentUser. split.
  - intros m Hu Hid.
    assert (request_interceptor (currentUser w) c
            = Ok (set_header "x-user-id" (VStr "test-user-123") c)) as E.
    { rewrite Hu. unfold request_interceptor, get_opt. simpl.
      destruct Hid as [-> | ->]; reflexivity. }
    split; [by rewrite E | by apply request_wire].
  - destruct (request_interceptor_sets (currentUser w) c) as (v & E & Ht & _).
    exists (set_header "x-user-id" v c), v. split_and!; auto.
    + by apply request_wire.
    + apply set_header_lookup.
    + intros ->. discriminate.
Qed.

Lemma empty_identity_falls_back_witness :
  request_interceptor (VObj {[ "id" := VStr "" ]})
    (create VUndefined GET "/tasks/open" VUndefined (VObj ∅))
  = request_interceptor VNull
      (create VUndefined GET "/tasks/open" VUndefined (VObj ∅))
  ∧ wire (getOpenTasks VUndefined (λ _, None) VUndefined
            (setCurrentUser (VObj {[ "id" := VStr "" ]}) init)).2
    = [] ++ [set_header "x-user-id" (VStr "test-user-123")
               (create VUndefined GET "/tasks/open" VUndefined (VObj ∅))].
Proof.
  apply (proj1 (empty_identity_falls_back (λ _, None)
           (create VUndefined GET "/tasks/open" VUndefined (VObj ∅))
           (setCurrentUser (VObj {[ "id" := VStr "" ]}) init))
         {[ "id" := VStr "" ]}).
  - reflexivity.
  - right. reflexivity.
Defined.

(** C7.  [acceptTask(t)] hands exactly one request to the network: a
    POST to [/tasks/t/accept] whose body is [undefined], that is, no
    body, and without query parameters. *)
Theorem acceptTask_one_post
    (env : value) (adapter : config → option (Z * value))
    (t : string) (w : world) :
  ∃ c', wire (acceptTask env adapter t w).2 = wire w ++ [c']
        ∧ method c' = POST
        ∧ url c' = "/tasks/" +:+ t +:+ "/accept"
        ∧ data c' = VUndefined
        ∧ params c' = VUndefined.
Proof.
  unfold acceptTask, apiClient_post.
  set (c := create env POST _ VUndefined VUndefined).
  destruct (request_interceptor_sets (currentUser w) c) as (v & E & _).
  exists (set_header "x-user-id" v c). split_and!; try reflexivity.
  by apply request_wire.
Qed.

Example acceptTask_T1 :
  wire (acceptTask VUndefined (λ _, Some (200, VObj ∅)) "T1" init).2
  = [ {| method := POST; url := "/tasks/T1/accept";
         data := VUndefined; params := VUndefined;
         headers := {[ "Content-Type" := VStr "application/json";
                       "x-user-id" := VStr "test-user-123" ]};
         baseURL := VStr "http://localhost:8000"; timeout := 10000 |} ].
Proof. reflexivity. Qed.

(** *** The auth binding and the identity store *)

(** Every action leaves the provider's [user] and the API module's
    [currentUser] equal when they were. *)
Lemma step_in_step adapter (s : AuthContext.state) (a : AuthContext.action) :
  AuthContext.user s = getCurrentUser (AuthContext.api s) →
  AuthContext.user (AuthContext.step adapter s a)
  = getCurrentUser (AuthContext.api (AuthContext.step adapter s a)).
Proof.
  unfold getCurrentUser. intros H.
  destruct a; simpl; try reflexivity.
  by rewrite request_currentUser.
Qed.

Lemma run_in_step adapter (acts : list AuthContext.action) :
  ∀ s : AuthContext.state,
    AuthContext.user s = getCurrentUser (AuthContext.api s) →
    AuthContext.user (AuthContext.run adapter acts s)
    = getCurrentUser (AuthContext.api (AuthContext.run adapter acts s)).
Proof.
  unfold AuthContext.run.
  induction acts as [|a acts IH]; intros s H; simpl.
  - exact H.
  - apply IH. by apply step_in_step.
Qed.

(** C5.  [login(u)] followed by a read of the identity store yields
    [u]; [logout()] followed by a read yields [null].  More generally,
    after any sequence of mount effects, logins, logouts, [setUser]
    calls and API requests on a fresh page, the provider's user and the
    identity store hold the same value. *)
Theorem login_logout_reach_store
    (adapter : config → option (Z * value))
    (u : value) (s : AuthContext.state) (acts : list AuthContext.action) :
  getCurrentUser (AuthContext.api (AuthContext.login u s)) = u
  ∧ getCurrentUser (AuthContext.api (AuthContext.logout s)) = VNull
  ∧ AuthContext.user (AuthContext.login u s)
    = getCurrentUser (AuthContext.api (AuthContext.login u s))
  ∧ AuthContext.user (AuthContext.logout s)
    = getCurrentUser (AuthContext.api (AuthContext.logout s))
  ∧ AuthContext.user (AuthContext.run adapter acts AuthContext.init)
    = getCurrentUser
        (AuthContext.api (AuthContext.run adapter acts AuthContext.init)).
Proof.
  split_and!; try reflexivity.
  apply run_in_step. reflexivity.
Qed.

(** *** The response interceptor *)

Lemma settle_unauthorized (body : value) :
  settle (Some (401, body))
  = Rejected (axios_error (Some (axios_response 401 body))).
Proof. reflexivity. Qed.

(** C6.  An error whose response has status 401 reaches the caller as a
    rejection with that same error.  The interceptor writes one console
    line and does nothing else: the request that was answered is the only
    one handed to the network (no retry), and the stored identity is the
    one from before.  Every response with status 401 arrives as such an
    error. *)
Theorem unauthorized_is_propagated
    (adapter : config → option (Z * value))
    (c c' : config) (w : world) (error response : value) :
  get error "response" = Ok response →
  get response "status" = Ok (VNum 401) →
  response_interceptor (Rejected error) w
  = (Rejected error,
     {| currentUser := getCurrentUser w;
        console := console w ++ [[VStr "Unauthorized access"]];
        wire := wire w |})
  ∧ (request_interceptor (getCurrentUser w) c = Ok c' →
     settle (adapter c') = Rejected error →
     request adapter c w
     = (Rejected error,
        {| currentUser := getCurrentUser w;
           console := console w ++ [[VStr "Unauthorized access"]];
           wire := wire w ++ [c'] |}))
  ∧ (∀ body,
       adapter c' = Some (401, body) →
       settle (adapter c')
       = Rejected (axios_error (Some (axios_response 401 body)))
       ∧ get (axios_error (Some (axios_response 401 body))) "response"
         = Ok (axios_response 401 body)
       ∧ get (axios_response 401 body) "status" = Ok (VNum 401)).
Proof.
  intros Hr Hs.
  assert (is_unauthorized error = Ok true) as Hu.
  { unfold is_unauthorized, get_opt. rewrite Hr. simpl.
    destruct response; simpl in Hs |- *; try discriminate Hs.
    injection Hs as ->. reflexivity. }
  unfold getCurrentUser. split_and!.
  - simpl. by rewrite Hu.
  - intros Hc Ha. unfold request. rewrite Hc, Ha. simpl. by rewrite Hu.
  - intros body ->. done.
Qed.

Lemma unauthorized_is_propagated_witness :
  let w := setCurrentUser AuthContext.testUser init in
  let c := create VUndefined GET "/users/me" VUndefined VUndefined in
  let error := axios_error (Some (axios_response 401 VNull)) in
  getProfile VUndefined (λ _, Some (401, VNull)) w
  = (Rejected error,
     {| currentUser := AuthContext.testUser;
        console := [[VStr "Unauthorized access"]];
        wire := [set_header "x-user-id" (VStr "test-user-123") c] |}).
Proof.
  intros w c error.
  apply (proj1 (proj2 (unauthorized_is_propagated
                         (λ _, Some (401, VNull)) c
                         (set_header "x-user-id" (VStr "test-user-123") c)
                         w error (axios_response 401 VNull)
                         eq_refl eq_refl)));
    reflexivity.
Defined.

(** The interceptor returns every outcome as it came. *)
Lemma response_interceptor_propagates o w :
  (∀ r, o = Fulfilled r → response_interceptor o w = (o, w))
  ∧ (∀ m, o = Rejected (VObj m) → (response_interceptor o w).1 = o).
Proof.
  split.
  - by intros r ->.
  - intros m ->. simpl.
    destruct (is_unauthorized (VObj m)) as [[]|] eqn:E; try done.
    unfold is_unauthorized in E. simpl in E.
    destruct (default VUndefined (m !! "response")) as [| | | | | |r];
      simpl in E; discriminate.
Qed.

Lemma is_unauthorized_axios (st : Z) (body : value) :
  is_unauthorized (axios_error (Some (axios_response st body)))
  = Ok (st =? 401).
Proof. reflexivity. Qed.

Lemma response_interceptor_settle (ex : option (Z * value)) (w : world) :
  response_interceptor (settle ex) w
  = (settle ex,
     match ex with
     | Some (st, _) =>
         if st =? 401 then log [VStr "Unauthorized access"] w else w
     | None => w
     end).
Proof.
  destruct ex as [[st body]|]; [|reflexivity].
  unfold settle. destruct ((st =? 0) || validateStatus st) eqn:Hv.
  - destruct (Z.eqb_spec st 401) as [->|_]; [discriminate Hv|reflexivity].
  - cbn [response_interceptor]. rewrite is_unauthorized_axios.
    by destruct (st =? 401).
Qed.

(** *** The error handler *)

(** C8 (as amended).  The message [handleError] stores is the [detail]
    found at [error.response.data.detail] when that detail is truthy (a
    detail string: when it is not empty), and the generic message in
    every other case: the detail is falsy or missing, the data of the
    response is missing or not an object (the empty or HTML body of an
    error page, [null]), the response is missing or not an object (a
    transport failure). *)
Theorem handleError_message
    (me : gmap string value) (h : ErrorHandler.hook) :
  (∀ mr md v,
      me !! "response" = Some (VObj mr) →
      mr !! "data" = Some (VObj md) →
      md !! "detail" = Some v → truthy v = true →
      ErrorHandler.handleError (VObj me) h
      = (Ok (),
         ErrorHandler.setError v
           (ErrorHandler.log [VStr "API Error:"; VObj me] h)))
  ∧ (∀ mr md s,
       me !! "response" = Some (VObj mr) →
       mr !! "data" = Some (VObj md) →
       md !! "detail" = Some (VStr s) → s ≠ "" →
       ErrorHandler.handleError (VObj me) h
       = (Ok (),
          ErrorHandler.setError (VStr s)
            (ErrorHandler.log [VStr "API Error:"; VObj me] h)))
  ∧ ((∃ mr md v, me !! "response" = Some (VObj mr)
                 ∧ mr !! "data" = Some (VObj md)
                 ∧ md !! "detail" = Some v ∧ truthy v = false)
     ∨ (∃ mr md, me !! "response" = Some (VObj mr)
                 ∧ mr !! "data" = Some (VObj md)
                 ∧ md !! "detail" = None)
     ∨ (∃ mr d, me !! "response" = Some (VObj mr)
                ∧ mr !! "data" = Some d ∧ ∀ md, d ≠ VObj md)
     ∨ (∃ mr, me !! "response" = Some (VObj mr) ∧ mr !! "data" = None)
     ∨ (∃ r, me !! "response" = Some r ∧ ∀ mr, r ≠ VObj mr)
     ∨ me !! "response" = None →
     ErrorHandler.handleError (VObj me) h
     = (Ok (),
        ErrorHandler.setError (VStr "An unexpected error occurred")
          (ErrorHandler.log [VStr "API Error:"; VObj me] h))).
Proof.
  assert (∀ x, (∀ m, x ≠ VObj m) → ∀ k, k ≠ "length" →
               get_opt x k = Ok VUndefined) as Hprim.
  { intros x Hx k Hk. destruct x as [| | | | | |m]; try reflexivity.
    - unfold get_opt, get. simpl.
      by destruct (String.eqb_spec k "length").
    - unfold get_opt, get. simpl.
      by destruct (String.eqb_spec k "length").
    - by destruct (Hx m). }
  split_and!.
  - intros mr md v Hr Hd Hs Hv.
    unfold ErrorHandler.handleError. simpl.
    rewrite Hr. simpl. rewrite Hd. simpl. rewrite Hs. simpl.
    by rewrite Hv.
  - intros mr md s Hr Hd Hs Hne.
    unfold ErrorHandler.handleError. simpl.
    rewrite Hr. simpl. rewrite Hd. simpl. rewrite Hs. simpl.
    apply truthy_string in Hne. simpl in Hne. by rewrite Hne.
  - intros [(mr & md & v & Hr & Hd & Hs & Hv)
           |[(mr & md & Hr & Hd & Hs)
           |[(mr & d & Hr & Hd & Hn)
           |[(mr & Hr & Hd)
           |[(r & Hr & Hn)
           | Hr]]]]];
      unfold ErrorHandler.handleError, or_else; simpl; rewrite Hr; simpl.
    + rewrite Hd. simpl. rewrite Hs. simpl. by rewrite Hv.
    + rewrite Hd. simpl. by rewrite Hs.
    + rewrite Hd. simpl. by rewrite (Hprim d Hn "detail").
    + by rewrite Hd.
    + rewrite (Hprim r Hn "data") by done. done.
    + done.
Qed.

Lemma handleError_message_witness :
  let forbidden :=
    {[ "name" := VStr "AxiosError";
       "response" := axios_response 403
                       (VObj {[ "detail" := VStr "Not allowed" ]}) ]} in
  let gateway :=
    {[ "name" := VStr "AxiosError";
       "response" := axios_response 502 (VStr "<html>Bad Gateway</html>") ]}
  in
  let offline := {[ "name" := VStr "AxiosError" ]} in
  ErrorHandler.error
    (ErrorHandler.handleError (VObj forbidden) ErrorHandler.init).2
  = VStr "Not allowed"
  ∧ ErrorHandler.error
      (ErrorHandler.handleError (VObj gateway) ErrorHandler.init).2
    = VStr "An unexpected error occurred"
  ∧ ErrorHandler.error
      (ErrorHandler.handleError (VObj offline) ErrorHandler.init).2
    = VStr "An unexpected error occurred".
Proof.
  intros forbidden gateway offline. split_and!.
  - rewrite (proj1 (proj2 (handleError_message forbidden ErrorHandler.init))
               {[ "status" := VNum 403;
                  "data" := VObj {[ "detail" := VStr "Not allowed" ]} ]}
               {[ "detail" := VStr "Not allowed" ]} "Not allowed");
      [reflexivity | reflexivity | reflexivity | reflexivity
      | discriminate].
  - rewrite (proj2 (proj2 (handleError_message gateway ErrorHandler.init)));
      [reflexivity|].
    right. right. left.
    exists {[ "status" := VNum 502;
              "data" := VStr "<html>Bad Gateway</html>" ]},
      (VStr "<html>Bad Gateway</html>").
    split_and!; [reflexivity | reflexivity | discriminate].
  - rewrite (proj2 (proj2 (handleError_message offline ErrorHandler.init)));
      [reflexivity|].
    do 5 right. reflexivity.
Defined.

(** C8 (as stated) fails: a detail that is there but empty is not the
    message; the generic one is. *)
Lemma handleError_empty_detail :
  let err :=
    axios_error (Some (axios_response 400 (VObj {[ "detail" := VStr "" ]})))
  in
  ErrorHandler.error (ErrorHandler.handleError err ErrorHandler.init).2
  = VStr "An unexpected error occurred"
  ∧ ErrorHandler.error (ErrorHandler.handleError err ErrorHandler.init).2
    ≠ VStr "".
Proof. split; [reflexivity | discriminate]. Qed.

(** *** The response transformers *)

Lemma get_total (p : value) (k : string) :
  nullish p = false → ∃ v, get p k = Ok v.
Proof. destruct p; simpl; intros; eauto; discriminate. Qed.

Lemma get_data_nullish (response p : value) :
  get response "data" = Ok p →
  nullish p = true →
  transformTaskResponse response = Throw TypeError
  ∧ transformRatingResponse response = Throw TypeError.
Proof.
  intros Hd Hn. unfold transformTaskResponse, transformRatingResponse.
  simpl. rewrite Hd. destruct p; try discriminate; done.
Qed.

Lemma get_truthy_length (t : value) :
  truthy t = true → ∃ n, get t "length" = Ok n.
Proof. intros H. apply get_total. destruct t; done. Qed.

(** [transformTaskResponse] in closed form, on a response with data. *)
Lemma transformTaskResponse_eq (response p : value) :
  get response "data" = Ok p → nullish p = false →
  ∃ t i c msg n,
    get p "tasks" = Ok t ∧ get p "items" = Ok i ∧ get p "count" = Ok c
    ∧ get p "message" = Ok msg
    ∧ (truthy t = true → get t "length" = Ok n)
    ∧ transformTaskResponse response
      = Ok (VObj {[ "tasks" := if truthy t then t
                               else if truthy i then i else VArr [p];
                    "count" := if truthy c then c
                               else if truthy t then n else VNum 1;
                    "message" := msg ]}).
Proof.
  intros Hd Hn.
  destruct (get_total p "tasks" Hn) as [t Ht].
  destruct (get_total p "items" Hn) as [i Hi].
  destruct (get_total p "count" Hn) as [c Hc].
  destruct (get_total p "message" Hn) as [msg Hm].
  assert (∃ n, truthy t = true → get t "length" = Ok n) as [n Hlen].
  { destruct (truthy t) eqn:E.
    - destruct (get_truthy_length t E) as [n Hlen]. eauto.
    - exists VUndefined. discriminate. }
  exists t, i, c, msg, n. split_and!; try done.
  unfold transformTaskResponse, or_else, cond. simpl.
  rewrite Hd. simpl. rewrite Ht, Hi, Hc, Hm. simpl.
  destruct (truthy t) eqn:Et; simpl.
  - rewrite (Hlen eq_refl). by destruct (truthy c).
  - by destruct (truthy i), (truthy c).
Qed.

(** [transformRatingResponse] in closed form, on a response with data. *)
Lemma transformRatingResponse_eq (response p : value) :
  get response "data" = Ok p → nullish p = false →
  ∃ r st,
    get p "ratings" = Ok r ∧ get p "statistics" = Ok st
    ∧ transformRatingResponse response
      = Ok (VObj {[ "ratings" := if truthy r then r else VArr [p];
                    "statistics" :=
                      if truthy st then st
                      else VObj {[ "average_rating" := VNum 0;
                                   "total_ratings" := VNum 0 ]} ]}).
Proof.
  intros Hd Hn.
  destruct (get_total p "ratings" Hn) as [r Hr].
  destruct (get_total p "statistics" Hn) as [st Hs].
  exists r, st. split_and!; try done.
  unfold transformRatingResponse, or_else. simpl.
  rewrite Hd. simpl. rewrite Hr, Hs. simpl.
  by destruct (truthy r), (truthy st).
Qed.

(** C2 (what the code does).  On a payload that has an [items] sequence
    but neither [tasks] nor [count], the transform returns the items as
    its [tasks] and [1] as its [count], whatever the number of items. *)
Theorem transformTaskResponse_items_count
    (response : value) (m : gmap string value) (l : list value) :
  get response "data" = Ok (VObj m) →
  m !! "tasks" = None → m !! "count" = None →
  m !! "items" = Some (VArr l) →
  transformTaskResponse response
  = Ok (VObj {[ "tasks" := VArr l; "count" := VNum 1;
                "message" := default VUndefined (m !! "message") ]}).
Proof.
  intros Hd Ht Hc Hi.
  destruct (transformTaskResponse_eq response (VObj m) Hd eq_refl)
    as (t & i & c & msg & n & Et & Ei & Ec & Em & _ & ->).
  simpl in Et, Ei, Ec, Em. rewrite Ht in Et. rewrite Hi in Ei.
  rewrite Hc in Ec. simplify_eq/=. reflexivity.
Qed.

Lemma transformTaskResponse_items_count_witness :
  transformTaskResponse
    (axios_response 200
       (VObj {[ "items" := VArr [VObj {[ "task_id" := VStr "a" ]};
                                 VObj {[ "task_id" := VStr "b" ]}] ]}))
  = Ok (VObj {[ "tasks" := VArr [VObj {[ "task_id" := VStr "a" ]};
                                 VObj {[ "task_id" := VStr "b" ]}];
                "count" := VNum 1;
                "message" := VUndefined ]}).
Proof.
  rewrite (transformTaskResponse_items_count
             (axios_response 200
                (VObj {[ "items" := VArr [VObj {[ "task_id" := VStr "a" ]};
                                          VObj {[ "task_id" := VStr "b" ]}]
                      ]}))
             {[ "items" := VArr [VObj {[ "task_id" := VStr "a" ]};
                                 VObj {[ "task_id" := VStr "b" ]}] ]}
             [VObj {[ "task_id" := VStr "a" ]};
              VObj {[ "task_id" := VStr "b" ]}]);
    reflexivity.
Defined.

(** X10.  The task-list transform on a payload object, case by case.
    [tasks] is the payload's [tasks] when truthy, else its [items] when
    truthy, else the payload wrapped in a one-element sequence.  [count]
    is the payload's [count] when truthy; when that is missing or falsy
    (zero), the [length] of the payload's [tasks] when those are truthy,
    and 1 when they are not, also when the list came from [items].
    [message] is the payload's, [undefined] when it has none. *)
Lemma transformTaskResponse_fields
    (response : value) (m : gmap string value) :
  get response "data" = Ok (VObj m) →
  ∃ tasks count,
    transformTaskResponse response
    = Ok (VObj {[ "tasks" := tasks; "count" := count;
                  "message" := default VUndefined (m !! "message") ]})
    ∧ (∀ l, m !! "tasks" = Some (VArr l) → tasks = VArr l)
    ∧ (∀ l, m !! "tasks" = None → m !! "items" = Some (VArr l) →
            tasks = VArr l)
    ∧ (m !! "tasks" = None → m !! "items" = None → tasks = VArr [VObj m])
    ∧ (∀ n, m !! "count" = Some (VNum n) → n ≠ 0 → count = VNum n)
    ∧ (∀ l, m !! "count" = None → m !! "tasks" = Some (VArr l) →
            count = VNum (Z.of_nat (length l)))
    ∧ (m !! "count" = None → m !! "tasks" = None → count = VNum 1)
    ∧ (truthy (default VUndefined (m !! "tasks")) = true →
       tasks = default VUndefined (m !! "tasks"))
    ∧ (truthy (default VUndefined (m !! "tasks")) = false →
       truthy (default VUndefined (m !! "items")) = true →
       tasks = default VUndefined (m !! "items"))
    ∧ (truthy (default VUndefined (m !! "tasks")) = false →
       truthy (default VUndefined (m !! "items")) = false →
       tasks = VArr [VObj m])
    ∧ (truthy (default VUndefined (m !! "count")) = true →
       count = default VUndefined (m !! "count"))
    ∧ (truthy (default VUndefined (m !! "count")) = false →
       ∀ l, m !! "tasks" = Some (VArr l) →
            count = VNum (Z.of_nat (length l)))
    ∧ (truthy (default VUndefined (m !! "count")) = false →
       ∀ v, m !! "tasks" = Some v → truthy v = true →
            (∀ s, v ≠ VStr s) → get v "length" = Ok count)
    ∧ (truthy (default VUndefined (m !! "count")) = false →
       truthy (default VUndefined (m !! "tasks")) = false →
       count = VNum 1).
Proof.
  intros Hd.
  destruct (transformTaskResponse_eq response (VObj m) Hd eq_refl)
    as (t & i & c & msg & n & Et & Ei & Ec & Em & Hlen & ->).
  simpl in Et, Ei, Ec, Em. simplify_eq/=.
  eexists _, _. split; [reflexivity|]. split_and!.
  - by intros l ->.
  - by intros l -> ->.
  - by intros -> ->.
  - intros k -> Hk. simpl. by destruct (Z.eqb_spec k 0).
  - intros l -> Hl. rewrite Hl in Hlen |- *. simpl in *.
    specialize (Hlen eq_refl). by simplify_eq.
  - by intros -> ->.
  - by intros ->.
  - by intros -> ->.
  - by intros -> ->.
  - by intros ->.
  - intros -> l Hl. rewrite Hl in Hlen |- *. simpl in *.
    specialize (Hlen eq_refl). by simplify_eq.
  - intros -> v Hv Ht _. rewrite Hv in Hlen |- *. simpl in *.
    rewrite Ht in Hlen |- *. by rewrite (Hlen eq_refl).
  - by intros -> ->.
Qed.




(** C4 (as amended).  On a payload other than [null] and [undefined]
    the rating-list transform returns as [ratings] the payload's
    [ratings] when that holds a truthy value (every sequence does, empty
    or not) and the payload wrapped in a one-element sequence when the
    field is missing or falsy; as [statistics] the payload's [statistics]
    when that holds a truthy value (every object does) and zero average
    and total when the field is missing or falsy.  The empty payload
    gives [{ratings: [{}], statistics: {average_rating: 0,
    total_ratings: 0}}].  On [null] and [undefined] it throws. *)
Theorem transformRatingResponse_fields (response payload : value) :
  get response "data" = Ok payload →
  (nullish payload = true →
   transformRatingResponse response = Throw TypeError)
  ∧ (nullish payload = false →
     ∃ r st ratings statistics,
       get payload "ratings" = Ok r
       ∧ get payload "statistics" = Ok st
       ∧ transformRatingResponse response
         = Ok (VObj {[ "ratings" := ratings; "statistics" := statistics ]})
       ∧ (truthy r = true → ratings = r)
       ∧ (truthy r = false → ratings = VArr [payload])
       ∧ (truthy st = true → statistics = st)
       ∧ (truthy st = false →
          statistics = VObj {[ "average_rating" := VNum 0;
                               "total_ratings" := VNum 0 ]})
       ∧ (∀ m, payload = VObj m →
               (∀ l, m !! "ratings" = Some (VArr l) → ratings = VArr l)
               ∧ (∀ v, m !! "ratings" = Some v → truthy v = true →
                       ratings = v)
               ∧ (∀ v, m !! "ratings" = Some v → truthy v = false →
                       ratings = VArr [payload])
               ∧ (m !! "ratings" = None → ratings = VArr [payload])
               ∧ (∀ o, m !! "statistics" = Some (VObj o) →
                       statistics = VObj o)
               ∧ (∀ v, m !! "statistics" = Some v → truthy v = true →
                       statistics = v)
               ∧ (∀ v, m !! "statistics" = Some v → truthy v = false →
                       statistics = VObj {[ "average_rating" := VNum 0;
                                            "total_ratings" := VNum 0 ]})
               ∧ (m !! "statistics" = None →
                  statistics = VObj {[ "average_rating" := VNum 0;
                                       "total_ratings" := VNum 0 ]})))
  ∧ (payload = VObj ∅ →
     transformRatingResponse response
     = Ok (VObj {[ "ratings" := VArr [VObj ∅];
                   "statistics" :=
                     VObj {[ "average_rating" := VNum 0;
                             "total_ratings" := VNum 0 ]} ]})).
Proof.
  intros Hd. split_and!.
  - intros Hn. by apply (get_data_nullish response payload).
  - intros Hn.
    destruct (transformRatingResponse_eq response payload Hd Hn)
      as (r & st & Er & Es & E).
    exists r, st. eexists _, _. split_and!; [exact Er|exact Es|exact E|..].
    + by intros ->.
    + by intros ->.
    + by intros ->.
    + by intros ->.
    + intros m ->. simpl in Er, Es.
      injection Er as <-. injection Es as <-. split_and!.
      * by intros l ->.
      * intros v -> Hv. simpl. by rewrite Hv.
      * intros v -> Hv. simpl. by rewrite Hv.
      * by intros ->.
      * by intros o ->.
      * intros v -> Hv. simpl. by rewrite Hv.
      * intros v -> Hv. simpl. by rewrite Hv.
      * by intros ->.
  - intros ->.
    destruct (transformRatingResponse_eq response (VObj ∅) Hd eq_refl)
      as (r & st & Er & Es & E).
    simpl in Er, Es. by simplify_eq/=.
Qed.

Lemma transformRatingResponse_fields_witness :
  transformRatingResponse (axios_response 200 VNull) = Throw TypeError
  ∧ transformRatingResponse (axios_response 200 (VObj ∅))
    = Ok (VObj {[ "ratings" := VArr [VObj ∅];
                  "statistics" :=
                    VObj {[ "average_rating" := VNum 0;
                            "total_ratings" := VNum 0 ]} ]})
  ∧ ∃ r st ratings statistics,
      get (VObj {[ "ratings" := VNull ]}) "ratings" = Ok r
      ∧ get (VObj {[ "ratings" := VNull ]}) "statistics" = Ok st
      ∧ transformRatingResponse
          (axios_response 200 (VObj {[ "ratings" := VNull ]}))
        = Ok (VObj {[ "ratings" := ratings; "statistics" := statistics ]})
      ∧ ratings = VArr [VObj {[ "ratings" := VNull ]}].
Proof.
  split_and!.
  - apply (proj1 (transformRatingResponse_fields
                    (axios_response 200 VNull) VNull eq_refl)).
    reflexivity.
  - apply (proj2 (proj2 (transformRatingResponse_fields
                           (axios_response 200 (VObj ∅)) (VObj ∅)
                           eq_refl))).
    reflexivity.
  - destruct (proj1 (proj2 (transformRatingResponse_fields
                              (axios_response 200
                                 (VObj {[ "ratings" := VNull ]}))
                              (VObj {[ "ratings" := VNull ]}) eq_refl))
                eq_refl)
      as (r & st & ratings & statistics & Er & Es & E & _ & Hf & _).
    exists r, st, ratings, statistics. split_and!; try done.
    apply Hf. by injection Er as <-.
Defined.

(** C4 (as stated) fails: on the payload [null] the transform returns
    nothing, it throws. *)
Lemma transformRatingResponse_null_payload :
  ¬ ∃ v, transformRatingResponse (axios_response 200 VNull) = Ok v.
Proof. intros [v H]. discriminate H. Qed.

(** *** Profile update *)

(** The form the Profile view starts with is read off the mock user:
    [user.full_name], [user.skill] and [user.bio || '']. *)
Lemma initialProfile_form :
  (full_name ← get MockApi.mockUser "full_name";
   skill ← get MockApi.mockUser "skill";
   bio ← or_else (get MockApi.mockUser "bio") (mret (VStr ""));
   mret (VObj {[ "full_name" := full_name; "skill" := skill;
                 "bio" := bio ]}))
  = Ok (Views.editForm Views.initialProfile).
Proof. reflexivity. Qed.





(** The real client sends the payload as it is, in one PUT to [/users/]. *)
Lemma updateProfile_sends_payload
    (env : value) (adapter : config → option (Z * value))
    (payload : value) (w : world) :
  ∃ c', wire (updateProfile env adapter payload w).2 = wire w ++ [c']
        ∧ method c' = PUT ∧ url c' = "/users/" ∧ data c' = payload.
Proof.
  unfold updateProfile, apiClient_put.
  set (c := create env PUT _ payload VUndefined).
  destruct (request_interceptor_sets (currentUser w) c) as (v & E & _).
  exists (set_header "x-user-id" v c). split_and!; try reflexivity.
  by apply request_wire.
Qed.

Example transform_tasks_ex :
  Api.transformTaskResponse
    (VObj {[ "data" := VObj {[ "tasks" := VArr [VStr "t1"; VStr "t2"] ]} ]})
  = Ok (VObj {[ "tasks" := VArr [VStr "t1"; VStr "t2"]; "count" := VNum 2;
                "message" := VUndefined ]}).
Proof. reflexivity. Qed.

Example transform_items_ex :
  Api.transformTaskResponse
    (VObj {[ "data" := VObj {[ "items" := VArr [VStr "t1"; VStr "t2"] ]} ]})
  = Ok (VObj {[ "tasks" := VArr [VStr "t1"; VStr "t2"]; "count" := VNum 1;
                "message" := VUndefined ]}).
Proof. reflexivity. Qed.

Example transform_rating_ex :
  Api.transformRatingResponse (VObj {[ "data" := VObj ∅ ]})
  = Ok (VObj {[ "ratings" := VArr [VObj ∅];
                "statistics" := VObj {[ "average_rating" := VNum 0;
                                        "total_ratings" := VNum 0 ]} ]}).
Proof. reflexivity. Qed.

Example transform_missing_ex :
  Api.transformRatingResponse (VObj ∅) = Throw TypeError.
Proof. reflexivity. Qed.

(** ** Further properties of the code *)

(** *** The API client *)

Lemma request_interceptor_id (m : gmap string value) (s : string) c :
  m !! "id" = Some (VStr s) → s ≠ "" →
  request_interceptor (VObj m) c = Ok (set_header "x-user-id" (VStr s) c).
Proof.
  intros Hid Hs. unfold request_interceptor, get_opt. simpl.
  rewrite Hid. simpl. apply truthy_string in Hs. simpl in Hs.
  by rewrite Hs.
Qed.

(** X1.  A change of identity made after a request has gone through
    the interceptor (the call was awaited) takes effect for the next
    request and not for that one: a request made and awaited as one user,
    then [setCurrentUser] to another, then a second request, leave on the
    wire the first request under the first id followed by the second
    under the second id. *)
Theorem identity_switch_next_request
    (adapter : config → option (Z * value)) (c1 c2 : config) (w : world)
    (ma mb : gmap string value) (a b : string) :
  getCurrentUser w = VObj ma → ma !! "id" = Some (VStr a) → a ≠ "" →
  mb !! "id" = Some (VStr b) → b ≠ "" →
  wire (request adapter c2
          (setCurrentUser (VObj mb) (request adapter c1 w).2)).2
  = wire w ++ [set_header "x-user-id" (VStr a) c1;
               set_header "x-user-id" (VStr b) c2].
Proof.
  unfold getCurrentUser. intros Hw Ha Hna Hb Hnb.
  rewrite (request_wire adapter c2 _ (set_header "x-user-id" (VStr b) c2))
    by (simpl; by apply request_interceptor_id).
  simpl.
  rewrite (request_wire adapter c1 w (set_header "x-user-id" (VStr a) c1))
    by (rewrite Hw; by apply request_interceptor_id).
  by rewrite <- app_assoc.
Qed.

Lemma identity_switch_next_request_witness :
  wire (getProfile VUndefined (λ _, None)
          (setCurrentUser (VObj {[ "id" := VStr "bob" ]})
             (getProfile VUndefined (λ _, None)
                (setCurrentUser (VObj {[ "id" := VStr "alice" ]})
                   init)).2)).2
  = [] ++ [set_header "x-user-id" (VStr "alice")
             (create VUndefined GET "/users/me" VUndefined VUndefined);
           set_header "x-user-id" (VStr "bob")
             (create VUndefined GET "/users/me" VUndefined VUndefined)].
Proof.
  apply (identity_switch_next_request (λ _, None)
           (create VUndefined GET "/users/me" VUndefined VUndefined)
           (create VUndefined GET "/users/me" VUndefined VUndefined)
           (setCurrentUser (VObj {[ "id" := VStr "alice" ]}) init)
           {[ "id" := VStr "alice" ]} {[ "id" := VStr "bob" ]}
           "alice" "bob");
    [reflexivity | reflexivity | discriminate | reflexivity | discriminate].
Defined.

Lemma is_unauthorized_object (m : gmap string value) :
  ∃ s, get_opt (default VUndefined (m !! "response")) "status" = Ok s
       ∧ is_unauthorized (VObj m) = Ok (is_number 401 s).
Proof.
  unfold is_unauthorized. simpl.
  destruct (default VUndefined (m !! "response")) as [| | | | | |r];
    simpl; eauto.
Qed.

Lemma is_number_spec n v : is_number n v = true ↔ v = VNum n.
Proof.
  destruct v; simpl; try (split; [discriminate|congruence]).
  rewrite Z.eqb_eq. split; congruence.
Qed.

(** X2.  The response interceptor hands every outcome on as it came and
    writes to the console for one kind only: an error object whose
    [response.status] is the number 401.  A fulfilled response, an error
    without a response, and an error with any other status (the string
    ["401"] included) leave the console as it was. *)
Theorem response_interceptor_logs_only_401 (o : settled) (w : world) :
  (∀ r, o = Fulfilled r → response_interceptor o w = (o, w))
  ∧ (∀ m s,
       o = Rejected (VObj m) →
       get_opt (default VUndefined (m !! "response")) "status" = Ok s →
       (response_interceptor o w).1 = o
       ∧ (s = VNum 401 →
          (response_interceptor o w).2 = log [VStr "Unauthorized access"] w)
       ∧ (s ≠ VNum 401 → (response_interceptor o w).2 = w)).
Proof.
  split; [by intros r ->|].
  intros m s -> Hs. simpl.
  destruct (is_unauthorized_object m) as (s' & Hs' & ->).
  rewrite Hs in Hs'. injection Hs' as <-.
  destruct (is_number 401 s) eqn:E.
  - apply is_number_spec in E as ->. split_and!; done.
  - split_and!; [done| |done]. intros ->. simpl in E. discriminate E.
Qed.

Lemma response_interceptor_logs_only_401_witness :
  let offline := Rejected (axios_error None) in
  let stringly :=
    Rejected (VObj {[ "response" := VObj {[ "status" := VStr "401" ]} ]}) in
  (response_interceptor offline init).1 = offline
  ∧ (response_interceptor offline init).2 = init
  ∧ (response_interceptor stringly init).2 = init.
Proof.
  intros offline stringly.
  destruct (proj2 (response_interceptor_logs_only_401 offline init)
              {[ "name" := VStr "AxiosError" ]} VUndefined
              eq_refl eq_refl) as (H1 & _ & H2).
  destruct (proj2 (response_interceptor_logs_only_401 stringly init)
              {[ "response" := VObj {[ "status" := VStr "401" ]} ]}
              (VStr "401") eq_refl eq_refl) as (_ & _ & H3).
  split_and!.
  - exact H1.
  - apply H2. discriminate.
  - apply H3. discriminate.
Defined.

(** X3.  A call of the client returns what the transport settled to,
    untouched; it puts exactly one request on the wire, keeps the stored
    identity, and adds a console line exactly when the answer has status
    401. *)
Theorem request_propagates_outcome
    (adapter : config → option (Z * value)) (c : config) (w : world) :
  ∃ c', request_interceptor (getCurrentUser w) c = Ok c'
        ∧ (request adapter c w).1 = settle (adapter c')
        ∧ wire (request adapter c w).2 = wire w ++ [c']
        ∧ getCurrentUser (request adapter c w).2 = getCurrentUser w
        ∧ console (request adapter c w).2
          = console w ++
            match adapter c' with
            | Some (st, _) =>
                if st =? 401 then [[VStr "Unauthorized access"]] else []
            | None => []
            end.
Proof.
  unfold getCurrentUser.
  destruct (request_interceptor_sets (currentUser w) c) as (v & E & _).
  exists (set_header "x-user-id" v c). split; [exact E|].
  split_and!.
  - unfold request. rewrite E. by rewrite response_interceptor_settle.
  - by apply request_wire.
  - apply request_currentUser.
  - unfold request. rewrite E, response_interceptor_settle. simpl.
    destruct (adapter _) as [[st body]|]; simpl.
    + destruct (st =? 401); simpl; by rewrite ?app_nil_r.
    + by rewrite app_nil_r.
Qed.

Lemma request_create env adapter m u d p w :
  ∃ v, wire (request adapter (create env m u d p) w).2
       = wire w ++ [set_header "x-user-id" v (create env m u d p)].
Proof.
  destruct (request_interceptor_sets (currentUser w) (create env m u d p))
    as (v & E & _).
  exists v. by apply request_wire.
Qed.

(** X4.  Whatever the operation, the request that goes out has the 10 s
    timeout and, as base URL, the environment's [VITE_API_BASE_URL] when
    that is set to something truthy and [http://localhost:8000] when it
    is unset or empty. *)
Theorem request_defaults
    (env : value) (adapter : config → option (Z * value))
    (m : verb) (u : string) (d p : value) (w : world) :
  ∃ c',
    wire (request adapter (create env m u d p) w).2 = wire w ++ [c']
    ∧ timeout c' = 10000
    ∧ (truthy env = true → baseURL c' = env)
    ∧ (truthy env = false → baseURL c' = VStr "http://localhost:8000").
Proof.
  destruct (request_create env adapter m u d p w) as [v Hw].
  eexists. split; [exact Hw|]. simpl. split_and!.
  - reflexivity.
  - unfold API_BASE_URL. by intros ->.
  - unfold API_BASE_URL. by intros ->.
Qed.

Lemma request_defaults_witness :
  ∃ c',
    wire (request (λ _, None)
            (create (VStr "") GET "/users/me" VUndefined VUndefined)
            init).2 = [] ++ [c']
    ∧ timeout c' = 10000
    ∧ baseURL c' = VStr "http://localhost:8000".
Proof.
  destruct (request_defaults (VStr "") (λ _, None) GET "/users/me"
              VUndefined VUndefined init)
    as (c' & Hw & Ht & _ & Hb).
  exists c'. split_and!; [exact Hw | exact Ht |].
  apply Hb. reflexivity.
Defined.

(** X5.  Each of these operations puts exactly one request on the wire,
    with the method and route of its line: payloads travel as the body,
    ids in the path, and the reason of a flag as the query parameter
    [flag_reason] next to a [null] body. *)
Theorem service_routes
    (env : value) (adapter : config → option (Z * value))
    (payload reason : value) (id : string) (w : world)
    (op : world → settled * world) (m : verb) (u : string) (d p : value) :
  (op, (m, u, d, p)) ∈
    [ (getProfile env adapter, (GET, "/users/me", VUndefined, VUndefined));
      (updateProfile env adapter payload,
        (PUT, "/users/", payload, VUndefined));
      (createUser env adapter payload,
        (POST, "/users/", payload, VUndefined));
      (createTask env adapter payload,
        (POST, "/tasks/", payload, VUndefined));
      (completeTask env adapter id,
        (POST, "/tasks/" +:+ id +:+ "/complete", VUndefined, VUndefined));
      (deleteTask env adapter id,
        (DELETE, "/tasks/" +:+ id, VUndefined, VUndefined));
      (createRating env adapter payload,
        (POST, "/ratings/", payload, VUndefined));
      (flagRating env adapter id reason,
        (POST, "/ratings/" +:+ id +:+ "/flag", VNull,
         VObj {[ "flag_reason" := reason ]}));
      (createReport env adapter payload,
        (POST, "/reports/", payload, VUndefined)) ] →
  ∃ c', wire (op w).2 = wire w ++ [c']
        ∧ method c' = m ∧ url c' = u ∧ data c' = d ∧ params c' = p.
Proof.
  intros H.
  assert (op = request adapter (create env m u d p)) as ->.
  { repeat (apply elem_of_cons in H as [H|H]; [by simplify_eq|]).
    by apply elem_of_nil in H. }
  destruct (request_create env adapter m u d p w) as [v Hw].
  eexists. split; [exact Hw|]. done.
Qed.

Lemma service_routes_witness :
  ∃ c', wire (flagRating VUndefined (λ _, None) "r7" (VStr "spam") init).2
        = [] ++ [c']
        ∧ method c' = POST ∧ url c' = "/ratings/r7/flag" ∧ data c' = VNull
        ∧ params c' = VObj {[ "flag_reason" := VStr "spam" ]}.
Proof.
  apply (service_routes VUndefined (λ _, None) VNull (VStr "spam") "r7"
           init (flagRating VUndefined (λ _, None) "r7" (VStr "spam"))).
  do 7 apply list_elem_of_further. apply list_elem_of_here.
Defined.

(** X6.  The seven list operations each put one GET without a body on
    the wire.  Their query parameters are the argument as it was passed,
    [null] included; only when nothing is passed ([undefined]) are they
    the empty object. *)
Theorem list_routes
    (env : value) (adapter : config → option (Z * value))
    (params : value) (w : world)
    (op : value → world → settled * world) (u : string) :
  (op, u) ∈
    [ (getOpenTasks env adapter, "/tasks/open");
      (getMyPostedTasks env adapter, "/tasks/my/posted");
      (getMyAcceptedTasks env adapter, "/tasks/my/accepted");
      (getMyRatings env adapter, "/ratings/my/received");
      (getMyGivenRatings env adapter, "/ratings/my/given");
      (getMyReports env adapter, "/reports/my/sent");
      (getReportsAgainstMe env adapter, "/reports/my/received") ] →
  ∃ c', wire (op params w).2 = wire w ++ [c']
        ∧ method c' = GET ∧ url c' = u ∧ data c' = VUndefined
        ∧ (params = VUndefined → Api.params c' = VObj ∅)
        ∧ (params ≠ VUndefined → Api.params c' = params).
Proof.
  intros H.
  assert (op = λ p, request adapter
                      (create env GET u VUndefined (or_default p (VObj ∅))))
    as ->.
  { repeat (apply elem_of_cons in H as [H|H]; [by simplify_eq|]).
    by apply elem_of_nil in H. }
  destruct (request_create env adapter GET u VUndefined
              (or_default params (VObj ∅)) w) as [v Hw].
  eexists. split; [exact Hw|]. simpl. split_and!; try done.
  - by intros ->.
  - intros Hne. by destruct params.
Qed.

Lemma list_routes_witness :
  ∃ c', wire (getMyRatings VUndefined (λ _, None) VNull init).2 = [] ++ [c']
        ∧ method c' = GET ∧ url c' = "/ratings/my/received"
        ∧ data c' = VUndefined ∧ Api.params c' = VNull.
Proof.
  destruct (list_routes VUndefined (λ _, None) VNull init
              (getMyRatings VUndefined (λ _, None)) "/ratings/my/received")
    as (c' & Hw & Hm & Hu & Hd & _ & Hp).
  { do 3 apply list_elem_of_further. apply list_elem_of_here. }
  exists c'. split_and!; try done. apply Hp. discriminate.
Defined.

(** *** The response transformers, once more *)

Lemma transform_has_data (response : value) :
  (∃ v, transformTaskResponse response = Ok v)
  ∨ (∃ v, transformRatingResponse response = Ok v) →
  ∃ p, get response "data" = Ok p ∧ nullish p = false.
Proof.
  intros H. destruct (get response "data") as [p|e] eqn:Hd.
  - exists p. split; [done|]. destruct (nullish p) eqn:Hn; [|done].
    destruct (get_data_nullish response p Hd Hn) as [Ht Hr].
    rewrite Ht, Hr in H. by destruct H as [[v H]|[v H]].
  - unfold transformTaskResponse, transformRatingResponse in H.
    simpl in H. rewrite Hd in H. by destruct H as [[v H]|[v H]].
Qed.

Lemma get_data_singleton (v : value) :
  get (VObj {[ "data" := v ]}) "data" = Ok v.
Proof. simpl. by rewrite lookup_singleton_eq. Qed.

Lemma get_task_shape (T C M : value) :
  get (VObj {[ "tasks" := T; "count" := C; "message" := M ]}) "tasks" = Ok T
  ∧ get (VObj {[ "tasks" := T; "count" := C; "message" := M ]}) "count"
    = Ok C
  ∧ get (VObj {[ "tasks" := T; "count" := C; "message" := M ]}) "message"
    = Ok M.
Proof. simpl. by simplify_map_eq. Qed.

Lemma get_rating_shape (R S : value) :
  get (VObj {[ "ratings" := R; "statistics" := S ]}) "ratings" = Ok R
  ∧ get (VObj {[ "ratings" := R; "statistics" := S ]}) "statistics" = Ok S.
Proof. simpl. by simplify_map_eq. Qed.

(** X8.  The task-list transform is idempotent: what it returns, handed
    back to it as the data of a response, comes out unchanged. *)
Theorem transformTaskResponse_idempotent (response v : value) :
  transformTaskResponse response = Ok v →
  transformTaskResponse (VObj {[ "data" := v ]}) = Ok v.
Proof.
  intros H.
  destruct (transform_has_data response) as (p & Hd & Hn); [eauto|].
  destruct (transformTaskResponse_eq response p Hd Hn)
    as (t & i & c & msg & n & _ & _ & _ & _ & Hlen & E).
  rewrite E in H. injection H as <-.
  set (T := if truthy t then t else if truthy i then i else VArr [p]).
  set (C := if truthy c then c else if truthy t then n else VNum 1).
  assert (truthy T = true) as HT
    by (unfold T; destruct (truthy t) eqn:?, (truthy i) eqn:?; done).
  destruct (transformTaskResponse_eq
              (VObj {[ "data" := VObj {[ "tasks" := T; "count" := C;
                                         "message" := msg ]} ]})
              (VObj {[ "tasks" := T; "count" := C; "message" := msg ]})
              (get_data_singleton _) eq_refl)
    as (t' & i' & c' & msg' & n' & Et & _ & Ec & Em & Hlen' & ->).
  destruct (get_task_shape T C msg) as (GT & GC & GM).
  rewrite GT in Et. rewrite GC in Ec. rewrite GM in Em.
  injection Et as <-. injection Ec as <-. injection Em as <-.
  rewrite HT. specialize (Hlen' HT).
  destruct (truthy C) eqn:HC; [done|].
  assert (n' = C) as ->; [|done].
  unfold C, T in *. destruct (truthy c) eqn:Hc; [congruence|].
  destruct (truthy t) eqn:Ht; [|discriminate HC].
  rewrite (Hlen eq_refl) in Hlen'. by injection Hlen'.
Qed.

Lemma transformTaskResponse_idempotent_witness :
  transformTaskResponse
    (VObj {[ "data" :=
               VObj {[ "tasks" := VArr [VStr "t1"; VStr "t2"];
                       "count" := VNum 1; "message" := VUndefined ]} ]})
  = Ok (VObj {[ "tasks" := VArr [VStr "t1"; VStr "t2"];
                "count" := VNum 1; "message" := VUndefined ]}).
Proof.
  apply (transformTaskResponse_idempotent
           (axios_response 200
              (VObj {[ "items" := VArr [VStr "t1"; VStr "t2"] ]}))).
  reflexivity.
Defined.

(** X9.  The rating-list transform is idempotent in the same way. *)
Theorem transformRatingResponse_idempotent (response v : value) :
  transformRatingResponse response = Ok v →
  transformRatingResponse (VObj {[ "data" := v ]}) = Ok v.
Proof.
  intros H.
  destruct (transform_has_data response) as (p & Hd & Hn); [eauto|].
  destruct (transformRatingResponse_eq response p Hd Hn)
    as (r & st & _ & _ & E).
  rewrite E in H. injection H as <-.
  set (R := if truthy r then r else VArr [p]).
  set (S := if truthy st then st
            else VObj {[ "average_rating" := VNum 0;
                         "total_ratings" := VNum 0 ]}).
  assert (truthy R = true) as HR by (unfold R; by destruct (truthy r) eqn:?).
  assert (truthy S = true) as HS by (unfold S; by destruct (truthy st) eqn:?).
  destruct (transformRatingResponse_eq
              (VObj {[ "data" := VObj {[ "ratings" := R;
                                         "statistics" := S ]} ]})
              (VObj {[ "ratings" := R; "statistics" := S ]})
              (get_data_singleton _) eq_refl)
    as (r' & st' & Er & Es & ->).
  destruct (get_rating_shape R S) as (GR & GS).
  rewrite GR in Er. rewrite GS in Es.
  injection Er as <-. injection Es as <-.
  by rewrite HR, HS.
Qed.

Lemma transformRatingResponse_idempotent_witness :
  transformRatingResponse
    (VObj {[ "data" :=
               VObj {[ "ratings" := VArr [VObj ∅];
                       "statistics" :=
                         VObj {[ "average_rating" := VNum 0;
                                 "total_ratings" := VNum 0 ]} ]} ]})
  = Ok (VObj {[ "ratings" := VArr [VObj ∅];
                "statistics" :=
                  VObj {[ "average_rating" := VNum 0;
                          "total_ratings" := VNum 0 ]} ]}).
Proof.
  apply (transformRatingResponse_idempotent (axios_response 200 (VObj ∅))).
  reflexivity.
Defined.

Lemma transformTaskResponse_fields_witness :
  ∃ tasks count,
    transformTaskResponse
      (axios_response 200
         (VObj {[ "tasks" := VArr [VStr "t1"; VStr "t2"];
                  "count" := VNum 0 ]}))
    = Ok (VObj {[ "tasks" := tasks; "count" := count;
                  "message" := VUndefined ]})
    ∧ tasks = VArr [VStr "t1"; VStr "t2"]
    ∧ count = VNum 2.
Proof.
  destruct (transformTaskResponse_fields
              (axios_response 200
                 (VObj {[ "tasks" := VArr [VStr "t1"; VStr "t2"];
                          "count" := VNum 0 ]}))
              {[ "tasks" := VArr [VStr "t1"; VStr "t2"];
                 "count" := VNum 0 ]} eq_refl)
    as (tasks & count & E & Ht & _ & _ & _ & _ & _ & _ & _ & _ & _ & Hc & _).
  exists tasks, count. split_and!.
  - exact E.
  - apply Ht. reflexivity.
  - apply (Hc eq_refl [VStr "t1"; VStr "t2"]). reflexivity.
Defined.

(** *** The error handler, once more *)

Lemma get_opt_total (v : value) (k : string) : ∃ x, get_opt v k = Ok x.
Proof.
  unfold get_opt. destruct (nullish v) eqn:Hn; [eauto|].
  by apply get_total.
Qed.

(** X11.  Given any error but [null] and [undefined], [handleError]
    returns normally, adds exactly one console line, and stores a truthy
    message whatever was stored before, never [null] and never the empty
    string; [clearError] then brings the stored error back to [null] and
    leaves the console alone. *)
Theorem handleError_stores_truthy (err : value) (h : ErrorHandler.hook) :
  nullish err = false →
  ∃ msg,
    ErrorHandler.handleError err h
    = (Ok (),
       {| ErrorHandler.error := msg;
          ErrorHandler.console :=
            ErrorHandler.console h ++ [[VStr "API Error:"; err]] |})
    ∧ truthy msg = true
    ∧ ErrorHandler.clearError (ErrorHandler.handleError err h).2
      = {| ErrorHandler.error := VNull;
           ErrorHandler.console :=
             ErrorHandler.console h ++ [[VStr "API Error:"; err]] |}.
Proof.
  intros Hn.
  destruct (get_total err "response" Hn) as [r Hr].
  destruct (get_opt_total r "data") as [d Hd].
  destruct (get_opt_total d "detail") as [x Hx].
  exists (if truthy x then x else VStr "An unexpected error occurred").
  assert (ErrorHandler.handleError err h
          = (Ok (),
             {| ErrorHandler.error :=
                  if truthy x then x
                  else VStr "An unexpected error occurred";
                ErrorHandler.console :=
                  ErrorHandler.console h ++ [[VStr "API Error:"; err]] |}))
    as E.
  { unfold ErrorHandler.handleError, or_else. simpl.
    rewrite Hr. simpl. rewrite Hd. simpl. rewrite Hx. simpl.
    by destruct (truthy x). }
  rewrite E. split_and!; [done| |done].
  by destruct (truthy x) eqn:Hx'.
Qed.

Lemma handleError_stores_truthy_witness :
  ∃ msg,
    ErrorHandler.handleError
      (axios_error (Some (axios_response 500 (VObj {[ "detail" := VStr "" ]}))))
      ErrorHandler.init
    = (Ok (),
       {| ErrorHandler.error := msg;
          ErrorHandler.console :=
            [] ++ [[VStr "API Error:";
                    axios_error
                      (Some (axios_response 500
                               (VObj {[ "detail" := VStr "" ]})))]] |})
    ∧ truthy msg = true.
Proof.
  destruct (handleError_stores_truthy
              (axios_error
                 (Some (axios_response 500 (VObj {[ "detail" := VStr "" ]}))))
              ErrorHandler.init eq_refl) as (msg & E & Ht & _).
  exists msg. split; [exact E | exact Ht].
Defined.

(** X12.  Given [null] or [undefined], [handleError] writes its console
    line and then throws a [TypeError]; the stored error stays what it
    was. *)
Theorem handleError_nullish_throws (err : value) (h : ErrorHandler.hook) :
  nullish err = true →
  ErrorHandler.handleError err h
  = (Throw TypeError,
     {| ErrorHandler.error := ErrorHandler.error h;
        ErrorHandler.console :=
          ErrorHandler.console h ++ [[VStr "API Error:"; err]] |}).
Proof. intros Hn. by destruct err. Qed.

Lemma handleError_nullish_throws_witness :
  ErrorHandler.handleError VUndefined
    (ErrorHandler.setError (VStr "earlier") ErrorHandler.init)
  = (Throw TypeError,
     {| ErrorHandler.error := VStr "earlier";
        ErrorHandler.console := [] ++ [[VStr "API Error:"; VUndefined]] |}).
Proof.
  apply (handleError_nullish_throws VUndefined
           (ErrorHandler.setError (VStr "earlier") ErrorHandler.init)).
  reflexivity.
Defined.

(** *** The auth binding, once more *)

(** X13.  Logging out does not take the identity off the wire: a request
    made after [logout()] carries [x-user-id: test-user-123], and so is
    the very request made after the mount effect has installed the test
    user. *)
Theorem logout_keeps_fallback_identity
    (adapter : config → option (Z * value))
    (c : config) (s : AuthContext.state) :
  wire (request adapter c (AuthContext.api (AuthContext.logout s))).2
  = wire (AuthContext.api s)
    ++ [set_header "x-user-id" (VStr "test-user-123") c]
  ∧ wire (request adapter c (AuthContext.api (AuthContext.mount s))).2
    = wire (AuthContext.api s)
      ++ [set_header "x-user-id" (VStr "test-user-123") c].
Proof.
  split;
    by rewrite (request_wire adapter c _
                  (set_header "x-user-id" (VStr "test-user-123") c)).
Qed.

(** X14.  Over any sequence of mount effects, logins, logouts, [setUser]
    calls and API requests, the requests on the wire grow by exactly one
    per API request: the binding itself never sends anything. *)
Theorem binding_sends_nothing
    (adapter : config → option (Z * value))
    (acts : list AuthContext.action) (s : AuthContext.state) :
  length (wire (AuthContext.api (AuthContext.run adapter acts s)))
  = (length (wire (AuthContext.api s))
     + length (List.filter
                 (λ a, match a with
                       | AuthContext.Call _ => true
                       | _ => false
                       end) acts))%nat.
Proof.
  unfold AuthContext.run. revert s.
  induction acts as [|a acts IH]; intros s; simpl; [lia|].
  rewrite IH. destruct a; simpl; try lia.
  destruct (request_interceptor_sets
              (currentUser (AuthContext.api s)) c) as (v & E & _).
  rewrite (request_wire adapter c _ _ E), length_app. simpl. lia.
Qed.

(** *** The views *)

Lemma starts_with_spec (q s : string) :
  Views.starts_with q s = true ↔ ∃ b, s = q +:+ b.
Proof.
  revert s. induction q as [|a q IH]; intros s; simpl.
  - split; eauto.
  - destruct s as [|c s].
    + split; [discriminate|]. by intros [b ?].
    + rewrite andb_true_iff, IH. split.
      * intros [Ha [b ->]]. apply Ascii.eqb_eq in Ha as ->. eauto.
      * intros [b [= -> ->]]. split; [apply Ascii.eqb_refl|eauto].
Qed.

(** [includes] is the substring test. *)
Lemma includes_spec (q s : string) :
  Views.includes q s = true ↔ ∃ a b, s = a +:+ q +:+ b.
Proof.
  induction s as [|c s IH]; simpl.
  - rewrite orb_false_r, starts_with_spec. split.
    + intros [b ->]. by exists "", b.
    + intros (a & b & H). destruct a; [by exists b|discriminate].
  - rewrite orb_true_iff, starts_with_spec, IH. split.
    + intros [[b ->] | (a & b & ->)]; [by exists "", b|].
      by exists (String c a), b.
    + intros ([|c' a] & b & H); [left; eauto|].
      right. injection H as -> ->. eauto.
Qed.

Lemma includes_empty (s : string) : Views.includes "" s = true.
Proof. by destruct s. Qed.

Lemma split_nonempty (sep : Ascii.ascii) (s : string) :
  Views.split sep s ≠ [].
Proof.
  destruct s as [|c s]; simpl; [done|].
  destruct (Ascii.eqb c sep); [done|]. by destruct (Views.split sep s).
Qed.

(** [s.split(sep).join(sep)] is [s]. *)
Lemma join_split (sep : Ascii.ascii) (s : string) :
  Views.join sep (Views.split sep s) = s.
Proof.
  induction s as [|c s IH]; simpl; [done|].
  destruct (Ascii.eqb_spec c sep) as [->|Hne].
  - pose proof (split_nonempty sep s).
    simpl. destruct (Views.split sep s) as [|p ps]; [done|].
    simpl in *. by rewrite IH.
  - pose proof (split_nonempty sep s).
    destruct (Views.split sep s) as [|p ps]; [done|].
    simpl in *. destruct ps; simpl in *; by rewrite <- IH.
Qed.


Lemma filter_all_ok (f : value → result bool) (g : value → bool)
    (l : list value) :
  (∀ x, x ∈ l → f x = Ok (g x)) → Views.filter f l = Ok (List.filter g l).
Proof.
  induction l as [|x l IH]; intros H; simpl; [done|].
  rewrite (H x) by left. simpl.
  rewrite IH by (intros y Hy; apply H; by right). simpl.
  by destruct (g x).
Qed.

Lemma filter_throws (f : value → result bool) (l : list value) (x : value) :
  x ∈ l → f x = Throw TypeError → Views.filter f l = Throw TypeError.
Proof.
  intros Hx Hf. induction Hx as [x l|x y l Hx IH]; simpl.
  - by rewrite Hf.
  - rewrite (IH Hf). by destruct (f y) as [b|[]].
Qed.

Lemma List_filter_sublist (g : value → bool) (l : list value) :
  List.filter g l `sublist_of` l.
Proof.
  induction l as [|x l IH]; simpl; [done|].
  destruct (g x); by constructor.
Qed.

Lemma some_strings (lower : string → string) (lq : string)
    (tags : list string) :
  Views.some (λ tag, g ← Views.call_toLowerCase lower tag;
                     mret (Views.includes lq g))
    (VStr <$> tags)
  = Ok (existsb (λ tag, Views.includes lq (lower tag)) tags).
Proof.
  induction tags as [|tag tags IH]; simpl; [done|].
  destruct (Views.includes lq (lower tag)); simpl; [done|exact IH].
Qed.

Lemma matches_task (lower : string → string) (q : string)
    (m : gmap string value) (title : string) (tags : list string) :
  m !! "title" = Some (VStr title) →
  m !! "tags" = Some (VArr (VStr <$> tags)) →
  Views.matches lower q (VObj m)
  = Ok (Views.includes (lower q) (lower title)
        || existsb (λ tag, Views.includes (lower q) (lower tag)) tags).
Proof.
  intros Ht Hg. unfold Views.matches. simpl. rewrite Ht. simpl.
  destruct (Views.includes (lower q) (lower title)); simpl; [done|].
  rewrite Hg. simpl. apply some_strings.
Qed.

(** X15.  On tasks that have a string title and a list of string tags,
    the dashboard search returns, in their original order, exactly the
    tasks whose lower-cased title or one of whose lower-cased tags
    contains the lower-cased query. *)
Theorem filteredTasks_matching
    (toLowerCase : string → string) (tasks : list value) (q : string) :
  Forall (λ task, ∃ m title tags,
            task = VObj m ∧ m !! "title" = Some (VStr title)
            ∧ m !! "tags" = Some (VArr (VStr <$> tags))) tasks →
  ∃ r, Views.filteredTasks toLowerCase tasks q = Ok r
       ∧ r `sublist_of` tasks
       ∧ ∀ m title tags,
           VObj m ∈ tasks →
           m !! "title" = Some (VStr title) →
           m !! "tags" = Some (VArr (VStr <$> tags)) →
           (VObj m ∈ r ↔
            Views.includes (toLowerCase q) (toLowerCase title) = true
            ∨ ∃ tag, tag ∈ tags
                     ∧ Views.includes (toLowerCase q) (toLowerCase tag)
                       = true).
Proof.
  intros Hwf.
  set (g := λ task, match Views.matches toLowerCase q task with
                    | Ok b => b
                    | Throw _ => false
                    end).
  exists (List.filter g tasks). split_and!.
  - apply filter_all_ok. intros x Hx.
    rewrite Forall_forall in Hwf.
    destruct (Hwf x Hx) as (m & title & tags & -> & Ht & Hg).
    unfold g. by rewrite (matches_task _ _ _ _ _ Ht Hg).
  - apply List_filter_sublist.
  - intros m title tags Hin Ht Hg.
    rewrite list_elem_of_In, filter_In, <- list_elem_of_In.
    unfold g. rewrite (matches_task _ _ _ _ _ Ht Hg).
    rewrite orb_true_iff, existsb_exists.
    setoid_rewrite <- list_elem_of_In.
    split; [by intros [_ H] | by intros H].
Qed.

Lemma filteredTasks_matching_witness :
  ∃ r, Views.filteredTasks (λ s, s) MockApi.mockTasks "wed" = Ok r
       ∧ r `sublist_of` MockApi.mockTasks.
Proof.
  destruct (filteredTasks_matching (λ s, s) MockApi.mockTasks "wed")
    as (r & E & Hs & _).
  - repeat constructor.
    + eexists _, "Build a landing page", ["web"; "design"; "react"].
      split_and!; reflexivity.
    + eexists _, "Photography for event",
        ["photography"; "wedding"; "event"].
      split_and!; reflexivity.
  - exists r. split; [exact E | exact Hs].
Defined.

(** X16.  With an empty query the filter expression keeps every task,
    as long as each has a string title: [filteredTasks] is the whole
    list, and the expression does not read the tags. *)
Theorem filteredTasks_empty_query
    (toLowerCase : string → string) (tasks : list value) :
  toLowerCase "" = "" →
  Forall (λ task, ∃ title, get task "title" = Ok (VStr title)) tasks →
  Views.filteredTasks toLowerCase tasks "" = Ok tasks.
Proof.
  intros Hl Hwf. unfold Views.filteredTasks.
  rewrite (filter_all_ok _ (λ _, true)).
  - f_equal. induction tasks as [|x l IH]; simpl; [done|].
    f_equal. apply IH. by inversion Hwf.
  - intros x Hx. rewrite Forall_forall in Hwf.
    destruct (Hwf x Hx) as [title Ht].
    unfold Views.matches. rewrite Ht. simpl.
    by rewrite Hl, includes_empty.
Qed.

Lemma filteredTasks_empty_query_witness :
  Views.filteredTasks (λ s, s) [VObj {[ "title" := VStr "Untagged" ]}] ""
  = Ok [VObj {[ "title" := VStr "Untagged" ]}].
Proof.
  apply (filteredTasks_empty_query (λ s, s)); [reflexivity|].
  repeat constructor. by exists "Untagged".
Defined.

(** X17.  One task without a string title is enough to make the search
    throw, for every query and wherever the task stands in the list. *)
Theorem filteredTasks_bad_title_throws
    (toLowerCase : string → string) (tasks : list value) (q : string)
    (task : value) :
  task ∈ tasks →
  (∀ title, get task "title" ≠ Ok (VStr title)) →
  Views.filteredTasks toLowerCase tasks q = Throw TypeError.
Proof.
  intros Hin Hbad. apply (filter_throws _ _ task Hin).
  unfold Views.matches.
  destruct (get task "title") as [v|[]] eqn:Ht; simpl; [|done].
  destruct v; try done. by destruct (Hbad s).
Qed.

Lemma filteredTasks_bad_title_throws_witness :
  Views.filteredTasks (λ s, s)
    (MockApi.mockTasks ++ [VObj {[ "task_id" := VStr "x" ]}]) "web"
  = Throw TypeError.
Proof.
  apply (filteredTasks_bad_title_throws (λ s, s) _ "web"
           (VObj {[ "task_id" := VStr "x" ]})).
  - do 2 apply list_elem_of_further. apply list_elem_of_here.
  - intros title H. discriminate H.
Defined.



(** X19.  The mock service decides the id and the status of what it
    creates: a created task has [status] ["open"] and as [task_id] the
    clock reading, a created rating or report has the clock reading as
    its [rating_id] or [report_id], whatever the payload said for those
    fields; every other property is the payload's. *)
Theorem mock_create_assigns_ids (now : Z) (payload : value) :
  (∃ m, MockApi.createTask now payload = Fulfilled (VObj m)
        ∧ m !! "status" = Some (VStr "open")
        ∧ m !! "task_id" = Some (VStr (pretty now))
        ∧ ∀ k, k ≠ "status" → k ≠ "task_id" →
               m !! k = own_props payload !! k)
  ∧ (∃ m, MockApi.createRating now payload = Fulfilled (VObj m)
          ∧ m !! "rating_id" = Some (VStr (pretty now))
          ∧ ∀ k, k ≠ "rating_id" → m !! k = own_props payload !! k)
  ∧ (∃ m, MockApi.createReport now payload = Fulfilled (VObj m)
          ∧ m !! "report_id" = Some (VStr (pretty now))
          ∧ ∀ k, k ≠ "report_id" → m !! k = own_props payload !! k).
Proof.
  unfold MockApi.createTask, MockApi.createRating, MockApi.createReport,
    MockApi.spread_with.
  split_and!; eexists; (split; [reflexivity|]); split_and!.
  - apply lookup_insert_eq.
  - by rewrite lookup_insert_ne, lookup_insert_eq.
  - intros k H1 H2. by rewrite !lookup_insert_ne.
  - apply lookup_insert_eq.
  - intros k H. by rewrite lookup_insert_ne.
  - apply lookup_insert_eq.
  - intros k H. by rewrite lookup_insert_ne.
Qed.

Lemma mock_create_assigns_ids_witness :
  ∃ m, MockApi.createTask 1700000000000
         (VObj {[ "title" := VStr "x"; "status" := VStr "completed";
                  "task_id" := VStr "mine" ]})
       = Fulfilled (VObj m)
       ∧ m !! "status" = Some (VStr "open")
       ∧ m !! "task_id" = Some (VStr "1700000000000")
       ∧ m !! "title" = Some (VStr "x").
Proof.
  destruct (proj1 (mock_create_assigns_ids 1700000000000
                     (VObj {[ "title" := VStr "x";
                              "status" := VStr "completed";
                              "task_id" := VStr "mine" ]})))
    as (m & E & Hs & Hi & Hk).
  exists m. split_and!; [exact E | exact Hs | exact Hi |].
  rewrite Hk; [reflexivity | discriminate | discriminate].
Defined.

(** X20.  [renderStars] always draws five stars, gold ones first: as
    many gold as the rating says, none for a rating of zero or less and
    five for a rating of five or more. *)
Theorem renderStars_clamped (rating : Z) :
  Views.renderStars rating
  = replicate (Z.to_nat (Z.max 0 (Z.min rating 5))) Views.Gold
    ++ replicate (5 - Z.to_nat (Z.max 0 (Z.min rating 5))) Views.Grey
  ∧ length (Views.renderStars rating) = 5%nat.
Proof.
  split; [|reflexivity].
  assert (rating ≤ 0 ∨ rating = 1 ∨ rating = 2 ∨ rating = 3
          ∨ rating = 4 ∨ 5 ≤ rating) as Hcases by lia.
  destruct Hcases as [H|[->|[->|[->|[->|H]]]]]; try reflexivity.
  - replace (Z.to_nat (Z.max 0 (Z.min rating 5))) with 0%nat by lia.
    unfold Views.renderStars. simpl.
    by rewrite !(proj2 (Z.ltb_ge _ rating)) by lia.
  - replace (Z.to_nat (Z.max 0 (Z.min rating 5))) with 5%nat by lia.
    unfold Views.renderStars. simpl.
    by rewrite !(proj2 (Z.ltb_lt _ rating)) by lia.
Qed.

Lemma clicks_in_header (l : list nat) (tab : string) :
  tab ∈ Views.header_tabs →
  fold_left Views.click l tab ∈ Views.header_tabs.
Proof.
  revert tab. induction l as [|i l IH]; intros tab Hin; simpl; [done|].
  apply IH. unfold Views.click.
  destruct (Views.header_tabs !! i) as [t|] eqn:E; simpl; [|done].
  by eapply list_elem_of_lookup_2.
Qed.

(** X21.  No sequence of clicks on the header ever shows the Reports
    view: the active tab stays one of the four header tabs, none of which
    [renderContent] maps to Reports; and a tab name [renderContent] does
    not know shows the dashboard. *)
Theorem reports_unreachable (l : list nat) (tab : string) :
  Views.clicks l ∈ Views.header_tabs
  ∧ Views.renderContent (Views.clicks l) ≠ Views.Reports
  ∧ (tab ∉ ["dashboard"; "my-tasks"; "profile"; "ratings"; "reports"] →
     Views.renderContent tab = Views.Dashboard).
Proof.
  assert (Views.clicks l ∈ Views.header_tabs) as Hin
    by (apply clicks_in_header; left).
  split_and!; [done| |].
  - revert Hin. generalize (Views.clicks l). intros t Ht.
    unfold Views.header_tabs in Ht.
    repeat (apply elem_of_cons in Ht as [->|Ht]; [done|]).
    by apply elem_of_nil in Ht.
  - intros Hn. unfold Views.renderContent.
    repeat match goal with
           | |- context [String.eqb tab ?name] =>
               destruct (String.eqb_spec tab name) as [->|_];
               [exfalso; apply Hn;
                repeat first [apply list_elem_of_here
                             |apply list_elem_of_further]|]
           end.
    reflexivity.
Qed.

Lemma reports_unreachable_witness :
  Views.renderContent "settings" = Views.Dashboard.
Proof.
  apply (reports_unreachable [] "settings").
  intros H.
  repeat (apply elem_of_cons in H as [H|H]; [discriminate H|]).
  by apply elem_of_nil in H.
Defined.
